(** * ai-transcript-mindmap: PDF paragraph -> cleaned transcript -> topic tree -> Mermaid diagram

    A shallow embedding of the backend modules

      - [pdf_extractor.py]      (paragraph segmentation and selection),
      - [transcript_service.py] (LLM cleaning with fallback to the raw text),
      - [mindmap_service.py]    (JSON cleanup, hierarchy extraction, Mermaid rendering),
      - [cli_mindmap.py]        (artifact file names),

    followed by the properties of the pipeline proved on it.

    Conventions.  A Python [str] is a [list ascii]: a sequence of code points,
    those below 256.  A Python [int] is a [Z].  A call that may raise returns
    a [result]; the [except] clauses of the source are written out as matches
    on the raised exception.  Calls to [logger] change no value that the
    functions return and are left out.  The remote chat-completion endpoint,
    the PDF reader, [os.path.exists] and [json.loads] are collaborators from
    outside the repository: they are parameters of the sections that use
    them. *)

From Stdlib Require Import List Ascii ZArith Lia Bool Arith QArith.
From Stdlib Require String DecimalString DecimalZ.
Import ListNotations.

Set Implicit Arguments.

(* ================================================================== *)
(** * Part I.  The embedding                                           *)
(* ================================================================== *)

(** ** Python strings *)

Module PyStr.

Definition str := list ascii.

(** String literals for [str]. *)
Inductive literal := LNil | LCons (a : ascii) (s : literal).

Fixpoint literal_of_bytes (l : list Byte.byte) : literal :=
  match l with
  | [] => LNil
  | b :: l' => LCons (ascii_of_byte b) (literal_of_bytes l')
  end.

Fixpoint bytes_of_literal (l : literal) : list Byte.byte :=
  match l with
  | LNil => []
  | LCons a l' => byte_of_ascii a :: bytes_of_literal l'
  end.

Declare Scope py_scope.
Delimit Scope py_scope with py.
#[warning="-via-type-remapping,-via-type-mismatch"]
String Notation str literal_of_bytes bytes_of_literal
  (via literal mapping [[nil] => LNil, [cons] => LCons]) : py_scope.

Definition LF : ascii := ascii_of_nat 10.
Definition DQUOTE : ascii := ascii_of_nat 34.
Definition SQUOTE : ascii := ascii_of_nat 39.

(** [str.isspace] on one character, which is also what [\s] matches in a
    [str] pattern and what [str.strip()] removes:
    U+0009..U+000D, U+001C..U+001F, U+0020, U+0085, U+00A0. *)
Definition isspace (c : ascii) : bool :=
  let n := N_of_ascii c in
  ((9 <=? n) && (n <=? 13) || (28 <=? n) && (n <=? 32)
   || (n =? 133) || (n =? 160))%N.

Definition eqb (a b : str) : bool :=
  if list_eq_dec ascii_dec a b then true else false.

(** [s.startswith(p)]. *)
Fixpoint startswith (p s : str) : bool :=
  match p, s with
  | [], _ => true
  | _ :: _, [] => false
  | a :: p', b :: s' => Ascii.eqb a b && startswith p' s'
  end.

(** [s.lstrip()], [s.rstrip()], [s.strip()]. *)
Fixpoint lstrip (s : str) : str :=
  match s with
  | [] => []
  | c :: s' => if isspace c then lstrip s' else s
  end.

Definition rstrip (s : str) : str := rev (lstrip (rev s)).

Definition strip (s : str) : str := rstrip (lstrip s).

(** Push a character onto the first chunk of a chunk list. *)
Definition cons_head (c : ascii) (l : list str) : list str :=
  match l with
  | [] => [[c]]
  | h :: t => (c :: h) :: t
  end.

(** [s.split(sep)] for a non-empty [sep]: the occurrences of [sep] are
    found from left to right and do not overlap.  [skip] counts the
    characters of a matched separator that are still to be passed over. *)
Fixpoint split_from (sep : str) (skip : nat) (s : str) : list str :=
  match s with
  | [] => [[]]
  | c :: s' =>
      match skip with
      | S k => split_from sep k s'
      | O =>
          if startswith sep s
          then [] :: split_from sep (length sep - 1) s'
          else cons_head c (split_from sep 0 s')
      end
  end.

Definition split (sep s : str) : list str := split_from sep 0 s.

(** [s.replace(old, new)]: every non-overlapping occurrence, from the left. *)
Fixpoint replace_from (old new : str) (skip : nat) (s : str) : str :=
  match s with
  | [] => []
  | c :: s' =>
      match skip with
      | S k => replace_from old new k s'
      | O =>
          if startswith old s
          then new ++ replace_from old new (length old - 1) s'
          else c :: replace_from old new 0 s'
      end
  end.

Definition replace (old new s : str) : str :=
  match old with
  | [] => new ++ flat_map (fun c => c :: new) s
  | _ :: _ => replace_from old new 0 s
  end.

(** [sep.join(l)]. *)
Fixpoint join (sep : str) (l : list str) : str :=
  match l with
  | [] => []
  | [x] => x
  | x :: l' => x ++ sep ++ join sep l'
  end.

(** [str(n)] for an [int]. *)
Definition str_of_Z (n : Z) : str :=
  String.list_ascii_of_string (DecimalString.NilEmpty.string_of_int (Z.to_int n)).

(** [len(s)] as an [int]. *)
Definition len {A} (l : list A) : Z := Z.of_nat (length l).

End PyStr.

Import PyStr.
Open Scope py_scope.
Open Scope list_scope.

(** ** Exceptions and results *)

(** The exceptions of class [Exception], which is what the handlers of the
    source catch; [JSONDecodeError] is the one that [json.loads] raises on a
    text that is no JSON. *)
Inductive exn :=
| FileNotFoundError (msg : str)
| ValueError (msg : str)
| JSONDecodeError (msg : str)
| TypeError (msg : str)
| AttributeError (msg : str)
| IndexError (msg : str)
| OtherError (msg : str).

Inductive result (A : Type) :=
| Ok (a : A)
| Raise (e : exn).

Arguments Ok {A} a.
Arguments Raise {A} e.

Definition bind {A B} (r : result A) (k : A -> result B) : result B :=
  match r with
  | Ok a => k a
  | Raise e => Raise e
  end.

Notation "x <- r ;; k" := (bind r (fun x => k))
  (at level 61, r at next level, right associativity).
Notation "' p <- r ;; k" := (bind r (fun x => let 'p := x in k))
  (at level 61, p pattern, r at next level, right associativity).

(** ** pdf_extractor.py *)

Module pdf_extractor.

Section Extractor.

(** Wall-clock readings; only their difference is stored. *)
Variable float : Type.
Variable fsub : float -> float -> float.

(** [os.path.exists] and [PdfReader]: a readable document is the list of
    the texts that [extract_text()] gives for its pages. *)
Variable path_exists : str -> bool.
Variable PdfReader : str -> result (list str).

Record ExtractionResult := {
  text : str;
  page : Z;
  paragraph_index : Z;
  length : Z;
  extraction_time : float
}.

(** STRATEGY 1: [[p.strip() for p in full_text.split("\n\n") if p.strip()]] *)
Definition strategy1 (full_text : str) : list str :=
  map strip
      (filter (fun p => negb (PyStr.eqb (strip p) []))
              (split [LF; LF] full_text)).

(** STRATEGY 2: [[line.strip() for line in full_text.split("\n") if line.strip()]] *)
Definition raw_lines (full_text : str) : list str :=
  map strip
      (filter (fun line => negb (PyStr.eqb (strip line) []))
              (split [LF] full_text)).

(** The value of [paragraphs] when the index is checked. *)
Definition paragraphs (full_text : str) : list str :=
  let paragraphs := strategy1 full_text in
  if (len paragraphs <=? 1)%Z then raw_lines full_text else paragraphs.

Definition error_msg (paragraph_index page_number : Z) (paragraphs : list str) : str :=
  "Paragraph index " ++ str_of_Z paragraph_index
    ++ " out of range on page " ++ str_of_Z page_number
    ++ ". Found " ++ str_of_Z (len paragraphs) ++ " paragraphs.".

(** The body of the [try] block.  The handler
    [except Exception as e: logger.error(...); raise e] re-raises what it
    caught, so the function is its [try] block after the existence test. *)
Definition extract_paragraph_try
    (start_time end_time : float)
    (pdf_path : str) (page_number paragraph_index : Z)
  : result ExtractionResult :=
  reader_pages <- PdfReader pdf_path ;;
  let internal_page_idx := (page_number - 1)%Z in
  if ((internal_page_idx <? 0) || (internal_page_idx >=? len reader_pages))%Z
  then Raise (ValueError ("Page " ++ str_of_Z page_number ++ " out of range."))
  else
    let full_text := nth (Z.to_nat internal_page_idx) reader_pages [] in
    let paragraphs := paragraphs full_text in
    if ((paragraph_index <? 0) || (paragraph_index >=? len paragraphs))%Z
    then Raise (ValueError (error_msg paragraph_index page_number paragraphs))
    else
      let target_text := nth (Z.to_nat paragraph_index) paragraphs [] in
      Ok {| text := target_text;
            page := page_number;
            paragraph_index := paragraph_index;
            length := len target_text;
            extraction_time := fsub end_time start_time |}.

Definition extract_paragraph
    (start_time end_time : float)
    (pdf_path : str) (page_number paragraph_index : Z)
  : result ExtractionResult :=
  if negb (path_exists pdf_path)
  then Raise (FileNotFoundError ("PDF not found at " ++ pdf_path))
  else
    match extract_paragraph_try start_time end_time pdf_path page_number paragraph_index with
    | Ok r => Ok r
    | Raise e => Raise e
    end.

End Extractor.

End pdf_extractor.

(** ** The chat-completion client (openai) *)

Module openai.

Record message := { role : str; content : str }.

Record request := {
  model : str;
  messages : list message;
  temperature : Q;
  response_format : option str
}.

(** A completion, as far as the code reads it: for each choice, its
    [message.content], which the API types as an optional string. *)
Record ChatCompletion := { choices : list (option str) }.

(** [response.choices[0].message.content] *)
Definition first_content (response : ChatCompletion) : result (option str) :=
  match choices response with
  | [] => Raise (IndexError "list index out of range")
  | c :: _ => Ok c
  end.

End openai.

(** ** transcript_service.py *)

Module transcript_service.

Import openai.

Section Cleaner.

Variable model_name : str.

(** [client.chat.completions.create]: it returns a completion or raises an
    [Exception]. *)
Variable create : request -> result ChatCompletion.

Definition system_instruction : str :=
  "You are a helpful editor. Your task is to clean up the following text. Fix grammar, remove formatting artifacts, and ensure it reads smoothly as a transcript. Do not summarize; keep the full content.".

Definition cleaning_request (raw_text : str) : request :=
  {| model := model_name;
     messages := [ {| role := "system"; content := system_instruction |};
                   {| role := "user"; content := raw_text |} ];
     temperature := 2 # 10;
     response_format := None |}.

(** The [try] block: the call, the first choice's content, and
    [len(cleaned_text)], which raises [TypeError] on [None]. *)
Definition clean_transcript_try (raw_text : str) : result str :=
  response <- create (cleaning_request raw_text) ;;
  cleaned_text <- first_content response ;;
  match cleaned_text with
  | None => Raise (TypeError "object of type 'NoneType' has no len()")
  | Some cleaned_text => Ok cleaned_text
  end.

(** [except Exception as e: logger.error(...); return raw_text] *)
Definition clean_transcript (raw_text : str) : str :=
  match clean_transcript_try raw_text with
  | Ok cleaned_text => cleaned_text
  | Raise _ => raw_text
  end.

Variable float : Type.
Variable fsub : float -> float -> float.
Variable path_exists : str -> bool.
Variable PdfReader : str -> result (list str).

Record Processed := {
  original : str;
  cleaned : str;
  metadata : pdf_extractor.ExtractionResult float
}.

Definition process_pdf_paragraph
    (start_time end_time : float) (pdf_path : str) (page paragraph_index : Z)
  : result Processed :=
  extraction_result <-
    pdf_extractor.extract_paragraph fsub path_exists PdfReader
      start_time end_time pdf_path page paragraph_index ;;
  let raw_text := pdf_extractor.text extraction_result in
  let cleaned_text := clean_transcript raw_text in
  Ok {| original := raw_text; cleaned := cleaned_text; metadata := extraction_result |}.

End Cleaner.

End transcript_service.

(** ** mindmap_service.py *)

Module mindmap_service.

Import openai.

(** What [json.loads] builds: [None], [bool], [int], [float] (kept as its
    literal), [str], [list] and [dict] (keys in insertion order). *)
#[warning="-register-all"]
Inductive json :=
| JNull
| JBool (b : bool)
| JInt (z : Z)
| JFloat (literal : str)
| JStr (s : str)
| JList (l : list json)
| JDict (d : list (str * json)).

(** [d.get(key, default)] *)
Fixpoint dict_get (d : list (str * json)) (key : str) (default : json) : json :=
  match d with
  | [] => default
  | (k, v) :: d' => if PyStr.eqb k key then v else dict_get d' key default
  end.

Definition FENCE : str := "```".
Definition FENCE_JSON : str := "```json".

(** The states of the scan for [re.sub(r"```json\s*", "", content)]:
    copying, inside a matched literal with [k] characters left, and inside
    the run of whitespace that follows it. *)
Inductive fence_state := Copy | InLiteral (k : nat) | InSpace.

Fixpoint sub_fence_json (st : fence_state) (s : str) : str :=
  match s with
  | [] => []
  | c :: s' =>
      let scan :=
        if startswith FENCE_JSON s
        then sub_fence_json (InLiteral (length FENCE_JSON - 2)) s'
        else c :: sub_fence_json Copy s' in
      match st with
      | InLiteral (S k) => sub_fence_json (InLiteral k) s'
      | InLiteral O => sub_fence_json InSpace s'
      | InSpace => if isspace c then sub_fence_json InSpace s' else scan
      | Copy => scan
      end
  end.

(** [re.sub(r"```\s*$", "", content)]: the match is a fence followed by
    nothing but whitespace up to the end of the string, and the first
    position where one starts is where the string is cut. *)
Fixpoint sub_fence_end (s : str) : str :=
  match s with
  | [] => []
  | c :: s' =>
      if startswith FENCE s && forallb isspace (skipn (length FENCE) s)
      then []
      else c :: sub_fence_end s'
  end.

Definition clean_json_response (content : str) : str :=
  let content := sub_fence_json Copy content in
  let content := sub_fence_end content in
  strip content.

(** The fallback error node. *)
Definition error_node : json :=
  JDict [ ("root", JStr "Error Parsing JSON");
          ("children", JList [ JDict [ ("name", JStr "Raw Text");
                                       ("children", JList []) ] ]) ].

Section Generator.

Variable model_name : str.
Variable create : request -> result ChatCompletion.

(** [json.loads]: the parsed value, or the exception it raises. *)
Variable json_loads : str -> result json.

Definition system_prompt : str :=
  "You are a helpful assistant. Analyze the provided text and extract the main topic "
  ++ "and subtopics. Output the result strictly as a valid JSON object with this structure: "
  ++ "{" ++ [DQUOTE] ++ "root" ++ [DQUOTE] ++ ": " ++ [DQUOTE] ++ "Main Topic Title" ++ [DQUOTE]
  ++ ", " ++ [DQUOTE] ++ "children" ++ [DQUOTE] ++ ": [{" ++ [DQUOTE] ++ "name" ++ [DQUOTE]
  ++ ": " ++ [DQUOTE] ++ "Subtopic" ++ [DQUOTE] ++ ", " ++ [DQUOTE] ++ "children" ++ [DQUOTE]
  ++ ": []}]}. "
  ++ "Do not add any markdown formatting or explanation. Just the JSON.".

Definition mindmap_request (transcript_text : str) : request :=
  {| model := model_name;
     messages := [ {| role := "system"; content := system_prompt |};
                   {| role := "user"; content := transcript_text |} ];
     temperature := 2 # 10;
     response_format := Some "json_object" |}.

(** The two handlers.  [content] is the local variable of that name when
    the exception was raised, if it was bound by then: the first handler
    formats it into a log line, which raises when it is unbound. *)
Definition handlers (content : option (option str)) (e : exn) : result json :=
  match e with
  | JSONDecodeError _ =>
      match content with
      | Some _ => Ok error_node
      | None =>
          Raise (OtherError
                   "cannot access local variable 'content' where it is not associated with a value")
      end
  | _ => Raise e
  end.

Definition generate_mindmap_json (transcript_text : str) : result json :=
  match create (mindmap_request transcript_text) with
  | Raise e => handlers None e
  | Ok response =>
      match first_content response with
      | Raise e => handlers None e
      | Ok None =>
          (* content[:100] *)
          handlers (Some None) (TypeError "'NoneType' object is not subscriptable")
      | Ok (Some content) =>
          let content := clean_json_response content in
          match json_loads content with
          | Ok mindmap_data => Ok mindmap_data
          | Raise e => handlers (Some (Some content)) e
          end
      end
  end.

End Generator.

(** *** save_mindmap_html and its inner json_to_mermaid *)

(** What [for child in v] iterates over. *)
Definition iterate (v : json) : result (list json) :=
  match v with
  | JList l => Ok l
  | JDict d => Ok (map (fun kv => JStr (fst kv)) d)
  | JStr s => Ok (map (fun c => JStr [c]) s)
  | _ => Raise (TypeError "object is not iterable")
  end.

(** The label: the value under [name], else under [root], else [Topic],
    with [replace] turning each double quote into a single quote; a value
    that is no string has no [replace]. *)
Definition sanitized_label (d : list (str * json)) : result str :=
  match dict_get d "name" (dict_get d "root" (JStr "Topic")) with
  | JStr label => Ok (replace [DQUOTE] [SQUOTE] label)
  | _ => Raise (AttributeError "object has no attribute 'replace'")
  end.

(** The two declaration lines. *)
Definition edge_line (parent_id current_id label : str) : str :=
  "    " ++ parent_id ++ " --> " ++ current_id ++ "[" ++ [DQUOTE] ++ label ++ [DQUOTE] ++ "]".

Definition node_line (current_id label : str) : str :=
  "    " ++ current_id ++ "[" ++ [DQUOTE] ++ label ++ [DQUOTE] ++ "]".

(** [if parent_id:] holds for a string that is not empty. *)
Definition declaration (parent_id : option str) (current_id label : str) : str :=
  match parent_id with
  | Some (c :: p) => edge_line (c :: p) current_id label
  | _ => node_line current_id label
  end.

(** The loop over the children, given the function it calls on each. *)
Fixpoint for_children
    (call : json -> option str -> Z -> result (list str * Z))
    (current_id : str) (children : list json)
    (lines : list str) (child_id_counter : Z) : result (list str * Z) :=
  match children with
  | [] => Ok (lines, child_id_counter)
  | child :: rest =>
      ' (child_lines, next_id) <- call child (Some current_id) child_id_counter ;;
      for_children call current_id rest (lines ++ child_lines) next_id
  end.

(** [json_to_mermaid] with a bound on the depth of its recursion.  The
    bound makes the recursion structural; [json_to_mermaid] below sets it to
    the depth of the value, which is always enough.  The recursion limit of
    the interpreter is a resource bound, like memory, and is not modelled. *)
Fixpoint json_to_mermaid_rec (depth : nat)
    (node : json) (parent_id : option str) (node_id : Z) : result (list str * Z) :=
  match depth with
  | O => Raise (OtherError "maximum recursion depth exceeded")
  | S depth' =>
      let current_id := "node" ++ str_of_Z node_id in
      match node with
      | JDict d =>
          label <- sanitized_label d ;;
          let lines := [declaration parent_id current_id label] in
          children <- iterate (dict_get d "children" (JList [])) ;;
          for_children (json_to_mermaid_rec depth') current_id children lines (node_id + 1)%Z
      | _ => Raise (AttributeError "object has no attribute 'get'")
      end
  end.

(** The nesting depth of a value: the recursion of [json_to_mermaid] on it
    is never deeper. *)
Fixpoint json_depth (v : json) : nat :=
  match v with
  | JList l =>
      S ((fix depths (l : list json) : nat :=
            match l with
            | [] => O
            | x :: l' => Nat.max (json_depth x) (depths l')
            end) l)
  | JDict d =>
      S ((fix depths (d : list (str * json)) : nat :=
            match d with
            | [] => O
            | (_, x) :: d' => Nat.max (json_depth x) (depths d')
            end) d)
  | _ => 1
  end.

Definition json_to_mermaid (node : json) (parent_id : option str) (node_id : Z)
  : result (list str * Z) :=
  json_to_mermaid_rec (json_depth node) node parent_id node_id.

Definition mermaid_graph (mermaid_lines : list str) : str :=
  "graph TD" ++ [LF] ++ join [LF] mermaid_lines.

Definition html_content (mermaid_graph : str) : str :=
  join [LF]
    [ "";
      "    <!DOCTYPE html>";
      "    <html>";
      "    <body>";
      "        <h2>Mind Map Visualization</h2>";
      "        <pre class=" ++ [DQUOTE] ++ "mermaid" ++ [DQUOTE] ++ ">";
      mermaid_graph;
      "        </pre>";
      "        <script type=" ++ [DQUOTE] ++ "module" ++ [DQUOTE] ++ ">";
      "            import mermaid from 'https://cdn.jsdelivr.net/npm/mermaid@10/dist/mermaid.esm.min.mjs';";
      "            mermaid.initialize({ startOnLoad: true });";
      "        </script>";
      "    </body>";
      "    </html>";
      "    " ].

(** [save_mindmap_html]: the file it writes, as (name, content). *)
Definition save_mindmap_html (mindmap_json : json) (output_file : str)
  : result (str * str) :=
  ' (mermaid_lines, _) <- json_to_mermaid mindmap_json None 0%Z ;;
  Ok (output_file, html_content (mermaid_graph mermaid_lines)).

(** The shape the system prompt asks the model for: a topic with its
    subtopics, the top one under the key [root], the others under [name]. *)
#[warning="-register-all"]
Inductive topic := Topic (label : str) (subtopics : list topic).

Fixpoint wire (key : str) (t : topic) : json :=
  match t with
  | Topic label subtopics =>
      JDict [ (key, JStr label); ("children", JList (map (wire "name") subtopics)) ]
  end.

Definition wire_root (t : topic) : json := wire "root" t.

End mindmap_service.

(** ** cli_mindmap.py *)

Module cli_mindmap.

(** [args.output.replace(".html", ext)], and [+= ext] when that changed
    nothing. *)
Definition derived_filename (ext output : str) : str :=
  let filename := replace ".html" ext output in
  if PyStr.eqb filename output then filename ++ ext else filename.

Definition txt_filename (output : str) : str := derived_filename ".txt" output.

Definition json_filename (output : str) : str := derived_filename ".json" output.

(** The three names [main] reports: transcript, JSON data, visual map. *)
Definition artifact_names (output : str) : str * str * str :=
  (txt_filename output, json_filename output, output).


(** *** main *)

Section Main.

Variable float : Type.
Variable fsub : float -> float -> float.
Variable path_exists : str -> bool.
Variable PdfReader : str -> result (list str).

(** The two modules build a client each, with a model name each. *)
Variable cleaning_model : str.
Variable cleaning_create : openai.request -> result openai.ChatCompletion.
Variable mindmap_model : str.
Variable mindmap_create : openai.request -> result openai.ChatCompletion.
Variable json_loads : str -> result mindmap_service.json.

(** The text that [json.dump(mindmap_data, f, indent=2)] writes. *)
Variable json_dump : mindmap_service.json -> str.

(** What a run leaves behind: the status the process exits with, and the
    files it wrote, as (name, content) in the order of the writes. *)
Record Run := { exit_status : Z; written : list (str * str) }.

(** [main], with the parsed arguments.  [sys.exit(1)] ends the run where it
    stands; the files written before stay.  Falling off the end of [main]
    exits with status 0.  What [print] shows is left out like the log, and
    the writes themselves are taken to succeed: errors of the file system
    are outside the model. *)
Definition main
    (start_time end_time : float)
    (pdf_path : str) (page paragraph : Z) (output : str) : Run :=
  if negb (path_exists pdf_path)
  then {| exit_status := 1; written := [] |}
  else
    match transcript_service.process_pdf_paragraph
            cleaning_model cleaning_create fsub path_exists PdfReader
            start_time end_time pdf_path page paragraph with
    | Raise _ => {| exit_status := 1; written := [] |}
    | Ok result =>
        let cleaned_text := transcript_service.cleaned result in
        let transcript := [ (txt_filename output, cleaned_text) ] in
        match mindmap_service.generate_mindmap_json
                mindmap_model mindmap_create json_loads cleaned_text with
        | Raise _ => {| exit_status := 1; written := transcript |}
        | Ok mindmap_data =>
            let with_json := transcript ++ [ (json_filename output, json_dump mindmap_data) ] in
            match mindmap_service.save_mindmap_html mindmap_data output with
            | Raise _ => {| exit_status := 1; written := with_json |}
            | Ok html_file => {| exit_status := 0; written := with_json ++ [ html_file ] |}
            end
        end
    end.

End Main.

End cli_mindmap.

(* ================================================================== *)
(** * Part II.  The segmentation of a page, as the specification words it *)
(* ================================================================== *)

Unset Implicit Arguments.

Module Segmenter.

(** Split on blank-line boundaries: a boundary is a run of two or more
    consecutive newline characters.  [in_boundary] tells that the
    character before was part of one. *)
Fixpoint blank_line_chunks (in_boundary : bool) (s : str) : list str :=
  match s with
  | [] => [[]]
  | c :: s' =>
      if Ascii.eqb c LF then
        if in_boundary then blank_line_chunks true s'
        else
          match s' with
          | c' :: _ =>
              if Ascii.eqb c' LF
              then [] :: blank_line_chunks true s'
              else cons_head c (blank_line_chunks false s')
          | [] => cons_head c (blank_line_chunks false s')
          end
      else cons_head c (blank_line_chunks false s')
  end.

(** Trim each chunk, discard the empty ones. *)
Definition trimmed_nonempty (chunks : list str) : list str :=
  filter (fun p => negb (PyStr.eqb p [])) (map strip chunks).

(** Candidate set A: the blocks of the page, a block being a chunk between
    two boundaries that is not empty once trimmed. *)
Definition candidate_A (full_page_text : str) : list str :=
  trimmed_nonempty (blank_line_chunks false full_page_text).

(** The lines of a text: split on single newline boundaries. *)
Fixpoint text_lines (s : str) : list str :=
  match s with
  | [] => [[]]
  | c :: s' =>
      if Ascii.eqb c LF then [] :: text_lines s'
      else cons_head c (text_lines s')
  end.

(** Candidate set B: every non-empty trimmed line is its own paragraph. *)
Definition candidate_B (full_page_text : str) : list str :=
  trimmed_nonempty (text_lines full_page_text).

(** The count of the lines that are not empty once trimmed. *)
Definition nonempty_trimmed_line_count (full_page_text : str) : nat :=
  length (filter (fun line => negb (PyStr.eqb (strip line) []))
                 (text_lines full_page_text)).

(** [needle] occurs in [s]. *)
Definition contains (needle s : str) : Prop :=
  exists before after, s = before ++ needle ++ after.

End Segmenter.

(** ** The traversal of a topic tree, as the specification words it *)

Module Renderer.

Import mindmap_service.

(** The identifier of the node numbered [i]. *)
Definition node_name (i : Z) : str := "node" ++ str_of_Z i.

(** Sanitization: each double-quote character becomes a single-quote
    character, and nothing else changes. *)
Definition sanitize (label : str) : str :=
  map (fun c => if Ascii.eqb c DQUOTE then SQUOTE else c) label.

(** The number of nodes of a tree. *)
Fixpoint size (t : topic) : nat :=
  match t with
  | Topic _ subtopics => S (list_sum (map size subtopics))
  end.

(** One visited node: the identifier of its parent (none for the node the
    traversal starts at, unless one is given), its own number, its label. *)
Record visit := { parent : option str; ident : Z; visited_label : str }.

(** The pre-order traversal from number [k]: the node, then its subtrees
    from left to right, each numbered from where the one before stopped. *)
Fixpoint preorder (t : topic) (parent_id : option str) (k : Z) : list visit :=
  match t with
  | Topic label subtopics =>
      {| parent := parent_id; ident := k; visited_label := label |}
      :: (fix forest (ts : list topic) (k' : Z) : list visit :=
            match ts with
            | [] => []
            | t' :: ts' =>
                preorder t' (Some (node_name k)) k'
                ++ forest ts' (k' + Z.of_nat (size t'))%Z
            end) subtopics (k + 1)%Z
  end.

Fixpoint preorder_forest (ts : list topic) (parent_id : option str) (k : Z) : list visit :=
  match ts with
  | [] => []
  | t :: ts' =>
      preorder t parent_id k ++ preorder_forest ts' parent_id (k + Z.of_nat (size t))%Z
  end.

(** The declaration line of a visited node. *)
Definition declaration_of (v : visit) : str :=
  declaration (parent v) (node_name (ident v)) (sanitize (visited_label v)).

(** The numbers [k], [k + 1], ..., [k + n - 1]. *)
Definition numbers_from (k : Z) (n : nat) : list Z :=
  map (fun i => (k + Z.of_nat i)%Z) (seq 0 n).

(** The number of double-quote characters of a line. *)
Definition quotes (line : str) : nat := count_occ ascii_dec line DQUOTE.

(** The height of a tree: the number of nodes on its longest branch. *)
Fixpoint height (t : topic) : nat :=
  match t with
  | Topic _ subtopics => S (list_max (map height subtopics))
  end.

(** The two keys a label is read from. *)
Definition label_key (key : str) : Prop := key = "root" \/ key = "name".

(** A parent identifier, when there is one, has no double quote. *)
Definition unquoted (parent_id : option str) : Prop :=
  forall s, parent_id = Some s -> quotes s = 0%nat.

(** Lines with exactly two double quotes each. *)
Definition well_quoted (lines : list str) : Prop :=
  Forall (fun line => quotes line = 2%nat) lines.

(** The labels of a tree, in pre-order. *)
Fixpoint labels (t : topic) : list str :=
  match t with
  | Topic label subtopics => label :: flat_map labels subtopics
  end.

(** A line carries a label when it ends with the sanitized label between
    two double quotes and square brackets, and has no other double quote. *)
Definition carries (line label : str) : Prop :=
  exists identifiers,
    quotes identifiers = 0%nat /\
    line = identifiers ++ "[" ++ [DQUOTE] ++ sanitize label ++ [DQUOTE] ++ "]".


End Renderer.

(** ** Occurrences of a substring *)

Module Naming.

(** [sub in s] *)
Fixpoint occurs (sub s : str) : bool :=
  startswith sub s ||
  match s with
  | [] => false
  | _ :: s' => occurs sub s'
  end.


(** Two strings differ at an index that both have. *)
Fixpoint differ (a b : str) : bool :=
  match a, b with
  | x :: a', y :: b' => negb (Ascii.eqb x y) || differ a' b'
  | _, _ => false
  end.


End Naming.

(* ================================================================== *)
(** * Part III.  Properties                                            *)
(* ================================================================== *)

(** ** Facts about strings *)

Module StrFacts.

Lemma eqb_true_iff (a b : str) : PyStr.eqb a b = true <-> a = b.
Proof.
  unfold PyStr.eqb. destruct (list_eq_dec ascii_dec a b); split; congruence.
Qed.

Lemma eqb_refl (a : str) : PyStr.eqb a a = true.
Proof. now apply eqb_true_iff. Qed.

Lemma eqb_false_iff (a b : str) : PyStr.eqb a b = false <-> a <> b.
Proof.
  unfold PyStr.eqb. destruct (list_eq_dec ascii_dec a b); split; congruence.
Qed.

Lemma isspace_LF : isspace LF = true.
Proof. reflexivity. Qed.

Lemma lstrip_space (c : ascii) (s : str) :
  isspace c = true -> lstrip (c :: s) = lstrip s.
Proof. intros H. simpl. now rewrite H. Qed.

Lemma strip_space (c : ascii) (s : str) :
  isspace c = true -> strip (c :: s) = strip s.
Proof. intros H. unfold strip. now rewrite lstrip_space. Qed.

Lemma strip_nil : strip [] = [].
Proof. reflexivity. Qed.

Lemma len_length {A} (l : list A) : len l = Z.of_nat (length l).
Proof. reflexivity. Qed.

(** A comprehension [[f p for p in l if g (f p)]] filters the mapped list. *)
Lemma comprehension_filter_map {A B} (f : A -> B) (g : B -> bool) (l : list A) :
  map f (filter (fun p => g (f p)) l) = filter g (map f l).
Proof.
  induction l as [|x l IH]; simpl; [reflexivity|].
  destruct (g (f x)); simpl; now rewrite IH.
Qed.

Lemma length_filter_map {A B} (f : A -> B) (g : B -> bool) (l : list A) :
  length (filter g (map f l)) = length (filter (fun p => g (f p)) l).
Proof.
  rewrite <- comprehension_filter_map. now rewrite length_map.
Qed.

End StrFacts.

(** ** The segmenter of [extract_paragraph] against the specification's *)

Module SegmenterFacts.

Import Segmenter StrFacts pdf_extractor.

Lemma strategy1_trimmed (full_text : str) :
  strategy1 full_text = trimmed_nonempty (split [LF; LF] full_text).
Proof.
  unfold strategy1, trimmed_nonempty.
  apply (comprehension_filter_map strip (fun p => negb (PyStr.eqb p []))).
Qed.

Lemma raw_lines_trimmed (full_text : str) :
  raw_lines full_text = trimmed_nonempty (split [LF] full_text).
Proof.
  unfold raw_lines, trimmed_nonempty.
  apply (comprehension_filter_map strip (fun p => negb (PyStr.eqb p []))).
Qed.

Lemma trimmed_nonempty_cons (h : str) (t : list str) :
  trimmed_nonempty (h :: t) =
  if PyStr.eqb (strip h) [] then trimmed_nonempty t else strip h :: trimmed_nonempty t.
Proof.
  unfold trimmed_nonempty. simpl. now destruct (PyStr.eqb (strip h) []).
Qed.

Lemma trimmed_nonempty_head_space (c : ascii) (h : str) (t : list str) :
  isspace c = true ->
  trimmed_nonempty ((c :: h) :: t) = trimmed_nonempty (h :: t).
Proof.
  intros H. rewrite !trimmed_nonempty_cons. now rewrite (strip_space c h H).
Qed.

(** [split] on a single newline gives the lines. *)
Lemma split_LF_lines (s : str) : split [LF] s = text_lines s.
Proof.
  unfold split. induction s as [|c s IH]; [reflexivity|].
  cbn [split_from startswith text_lines].
  change (Datatypes.length [LF] - 1)%nat with 0%nat.
  rewrite Bool.andb_true_r, (Ascii.eqb_sym LF c), IH.
  destruct (Ascii.eqb c LF); reflexivity.
Qed.

(** The unfoldings of [split] on two newlines. *)
Lemma split2_boundary (s : str) :
  split_from [LF; LF] 0 (LF :: LF :: s) = [] :: split_from [LF; LF] 0 s.
Proof. reflexivity. Qed.

Lemma split2_other (c : ascii) (s : str) :
  startswith [LF; LF] (c :: s) = false ->
  split_from [LF; LF] 0 (c :: s) = cons_head c (split_from [LF; LF] 0 s).
Proof. intros H. cbn [split_from]. now rewrite H. Qed.

Lemma startswith2_not_LF (c : ascii) (s : str) :
  c <> LF -> startswith [LF; LF] (c :: s) = false.
Proof.
  intros H. cbn [startswith]. apply Ascii.eqb_neq in H.
  now rewrite (Ascii.eqb_sym LF c), H.
Qed.

Lemma startswith2_single (c : ascii) (s : str) :
  c <> LF -> startswith [LF; LF] (LF :: c :: s) = false.
Proof.
  intros H. cbn [startswith]. apply Ascii.eqb_neq in H.
  rewrite (Ascii.eqb_sym LF c), H, Ascii.eqb_refl. reflexivity.
Qed.

(** Outside a boundary the two splits agree on the chunk being read and, up
    to trimming, on the chunks after it; inside a boundary they agree up to
    trimming. *)
Definition agree_outside (s : str) : Prop :=
  exists h t t',
    split_from [LF; LF] 0 s = h :: t /\
    blank_line_chunks false s = h :: t' /\
    trimmed_nonempty t = trimmed_nonempty t'.

Definition agree_inside (s : str) : Prop :=
  trimmed_nonempty (split_from [LF; LF] 0 s) = trimmed_nonempty (blank_line_chunks true s).

Lemma agree_outside_cons_head (c : ascii) (s : str) :
  agree_outside s ->
  exists h t t',
    cons_head c (split_from [LF; LF] 0 s) = h :: t /\
    cons_head c (blank_line_chunks false s) = h :: t' /\
    trimmed_nonempty t = trimmed_nonempty t'.
Proof.
  intros (h & t & t' & E1 & E2 & E3). rewrite E1, E2. simpl.
  now exists (c :: h), t, t'.
Qed.

Lemma agree_outside_trimmed (s : str) :
  agree_outside s ->
  trimmed_nonempty (split_from [LF; LF] 0 s) = trimmed_nonempty (blank_line_chunks false s).
Proof.
  intros (h & t & t' & E1 & E2 & E3). rewrite E1, E2, !trimmed_nonempty_cons.
  now rewrite E3.
Qed.

(** The unfoldings of the split on blank-line boundaries. *)
Lemma chunks_inside_LF (s : str) :
  blank_line_chunks true (LF :: s) = blank_line_chunks true s.
Proof. reflexivity. Qed.

Lemma chunks_boundary (s : str) :
  blank_line_chunks false (LF :: LF :: s) = [] :: blank_line_chunks true s.
Proof. reflexivity. Qed.

Lemma chunks_other (b : bool) (c : ascii) (s : str) :
  c <> LF -> blank_line_chunks b (c :: s) = cons_head c (blank_line_chunks false s).
Proof.
  intros H. apply Ascii.eqb_neq in H. cbn [blank_line_chunks]. now rewrite H.
Qed.

Lemma chunks_single (c : ascii) (s : str) :
  c <> LF ->
  blank_line_chunks false (LF :: c :: s) = cons_head LF (blank_line_chunks false (c :: s)).
Proof.
  intros H. apply Ascii.eqb_neq in H.
  change (blank_line_chunks false (LF :: c :: s))
    with (if Ascii.eqb c LF then [] :: blank_line_chunks true (c :: s)
          else cons_head LF (blank_line_chunks false (c :: s))).
  now rewrite H.
Qed.

Lemma splits_agree (n : nat) :
  forall s, (List.length s <= n)%nat -> agree_outside s /\ agree_inside s.
Proof.
  induction n as [|n IH]; intros s Hlen.
  - destruct s; [|simpl in Hlen; lia].
    split; [now exists [], [], [] | reflexivity].
  - destruct s as [|c s]; [split; [now exists [], [], [] | reflexivity]|].
    simpl in Hlen.
    destruct (Ascii.eqb_spec c LF) as [->|Hc].
    + (* a newline *)
      destruct s as [|c' s].
      * split; [now exists [LF], [], [] | reflexivity].
      * simpl in Hlen.
        destruct (Ascii.eqb_spec c' LF) as [->|Hc'].
        -- (* a boundary starts or goes on *)
           destruct (IH s ltac:(lia)) as [_ Hin].
           split.
           ++ exists [], (split_from [LF; LF] 0 s), (blank_line_chunks true s).
              rewrite split2_boundary, chunks_boundary. now repeat split.
           ++ unfold agree_inside.
              rewrite split2_boundary, !chunks_inside_LF, trimmed_nonempty_cons.
              exact Hin.
        -- (* a single newline: part of the chunk *)
           destruct (IH (c' :: s) ltac:(simpl; lia)) as [Hout _].
           destruct (IH s ltac:(lia)) as [Hout' _].
           split.
           ++ unfold agree_outside.
              rewrite (split2_other LF (c' :: s) (startswith2_single c' s Hc')).
              rewrite (chunks_single c' s Hc').
              now apply agree_outside_cons_head.
           ++ unfold agree_inside.
              rewrite (split2_other LF (c' :: s) (startswith2_single c' s Hc')).
              rewrite (split2_other c' s (startswith2_not_LF c' s Hc')).
              rewrite chunks_inside_LF, (chunks_other true c' s Hc').
              destruct Hout' as (h & t & t' & E1 & E2 & E3).
              rewrite E1, E2. cbn [cons_head].
              rewrite (trimmed_nonempty_head_space LF _ _ isspace_LF).
              rewrite !trimmed_nonempty_cons. now rewrite E3.
    + (* any other character *)
      destruct (IH s ltac:(lia)) as [Hout _].
      pose proof (agree_outside_cons_head c s Hout) as Hc2.
      assert (Es : split_from [LF; LF] 0 (c :: s) = cons_head c (split_from [LF; LF] 0 s))
        by (apply split2_other, startswith2_not_LF, Hc).
      split.
      * unfold agree_outside. rewrite Es, (chunks_other false c s Hc). exact Hc2.
      * unfold agree_inside. rewrite Es, (chunks_other true c s Hc).
        destruct Hc2 as (h & t & t' & E1 & E2 & E3).
        rewrite E1, E2, !trimmed_nonempty_cons. now rewrite E3.
Qed.

(** STRATEGY 1 computes candidate set A. *)
Lemma strategy1_candidate_A (full_text : str) :
  strategy1 full_text = candidate_A full_text.
Proof.
  rewrite strategy1_trimmed. unfold candidate_A, split.
  apply agree_outside_trimmed.
  exact (proj1 (splits_agree (List.length full_text) full_text (le_n _))).
Qed.

(** STRATEGY 2 computes candidate set B. *)
Lemma raw_lines_candidate_B (full_text : str) :
  raw_lines full_text = candidate_B full_text.
Proof.
  rewrite raw_lines_trimmed. unfold candidate_B. now rewrite split_LF_lines.
Qed.

End SegmenterFacts.

(** ** pdf_extractor: segmentation and the range check *)

Module PdfExtractorProps.

Import Segmenter StrFacts SegmenterFacts pdf_extractor.

Lemma paragraphs_many (full_text : str) :
  (2 <= List.length (strategy1 full_text))%nat ->
  paragraphs full_text = strategy1 full_text.
Proof.
  intros H. unfold paragraphs.
  destruct (Z.leb_spec (len (strategy1 full_text)) 1) as [Hle|_]; [|reflexivity].
  rewrite len_length in Hle. lia.
Qed.

Lemma paragraphs_few (full_text : str) :
  (List.length (strategy1 full_text) <= 1)%nat ->
  paragraphs full_text = raw_lines full_text.
Proof.
  intros H. unfold paragraphs.
  destruct (Z.leb_spec (len (strategy1 full_text)) 1) as [_|Hgt]; [reflexivity|].
  rewrite len_length in Hgt. lia.
Qed.

(** C4.  A page text with two or more blocks separated by blank-line
    boundaries (runs of two or more newlines) is segmented by strategy A:
    the paragraphs are the trimmed, non-empty chunks between the
    boundaries, and there are exactly as many paragraphs as blocks. *)
Theorem two_or_more_blocks_use_strategy_A (full_text : str) :
  (2 <= List.length (candidate_A full_text))%nat ->
  paragraphs full_text = strategy1 full_text /\
  paragraphs full_text = candidate_A full_text /\
  List.length (paragraphs full_text) = List.length (candidate_A full_text).
Proof.
  intros H. rewrite <- strategy1_candidate_A in *.
  rewrite (paragraphs_many full_text H). auto.
Qed.

Lemma two_or_more_blocks_use_strategy_A_witness :
  let full_text := "Para one." ++ [LF; LF; LF] ++ "Para two." ++ [LF; LF] ++ " Para three" in
  paragraphs full_text = candidate_A full_text /\
  paragraphs full_text = ["Para one."; "Para two."; "Para three"].
Proof.
  intros full_text.
  destruct (two_or_more_blocks_use_strategy_A full_text) as (_ & H & _).
  - vm_compute. lia.
  - split; [exact H | reflexivity].
Defined.

(** C5.  A page text whose blank-line split gives no block or one block is
    segmented line by line: split on single newlines, trim each line,
    discard the empty ones; the number of paragraphs is the number of
    lines that are not empty once trimmed. *)
Theorem at_most_one_block_falls_back_to_lines (full_text : str) :
  (List.length (candidate_A full_text) <= 1)%nat ->
  paragraphs full_text = raw_lines full_text /\
  paragraphs full_text = candidate_B full_text /\
  List.length (paragraphs full_text) = nonempty_trimmed_line_count full_text.
Proof.
  intros H. rewrite <- strategy1_candidate_A in H.
  rewrite (paragraphs_few full_text H), raw_lines_candidate_B.
  repeat split.
  unfold candidate_B, trimmed_nonempty, nonempty_trimmed_line_count.
  apply (length_filter_map strip (fun p => negb (PyStr.eqb p []))).
Qed.

Lemma at_most_one_block_falls_back_to_lines_witness :
  let full_text := "Title" ++ [LF] ++ "  first line " ++ [LF] ++ "   " ++ [LF] ++ "second line" in
  paragraphs full_text = ["Title"; "first line"; "second line"] /\
  nonempty_trimmed_line_count full_text = 3%nat.
Proof.
  intros full_text.
  destruct (at_most_one_block_falls_back_to_lines full_text) as (_ & _ & H).
  - vm_compute. lia.
  - split; [reflexivity | rewrite <- H; reflexivity].
Defined.

Section RangeCheck.

Variable float : Type.
Variable fsub : float -> float -> float.
Variable path_exists : str -> bool.
Variable PdfReader : str -> result (list str).
Variables start_time end_time : float.

(** C3.  On a page whose segmentation gives [n] paragraphs, an index
    below 0 or at least [n] makes [extract_paragraph] raise [ValueError]
    (the range error), with the message built from the index, the page and
    the count, so that it contains [n] written in decimal. *)
Theorem index_out_of_range_raises
    (pdf_path : str) (page_number paragraph_index : Z) (pages : list str) (n : nat) :
  path_exists pdf_path = true ->
  PdfReader pdf_path = Ok pages ->
  (1 <= page_number <= len pages)%Z ->
  List.length (paragraphs (nth (Z.to_nat (page_number - 1)) pages [])) = n ->
  (paragraph_index < 0 \/ paragraph_index >= Z.of_nat n)%Z ->
  exists msg,
    extract_paragraph fsub path_exists PdfReader start_time end_time
      pdf_path page_number paragraph_index = Raise (ValueError msg) /\
    msg = "Paragraph index " ++ str_of_Z paragraph_index
            ++ " out of range on page " ++ str_of_Z page_number
            ++ ". Found " ++ str_of_Z (Z.of_nat n) ++ " paragraphs." /\
    contains (str_of_Z (Z.of_nat n)) msg.
Proof.
  intros Hex Hread Hpage Hn Hidx.
  eexists. split; [|split].
  - unfold extract_paragraph, extract_paragraph_try. rewrite Hex, Hread.
    cbn [negb bind].
    destruct (Z.ltb_spec (page_number - 1) 0) as [?|_]; [lia|].
    destruct (Z.geb_spec (page_number - 1) (len pages)) as [?|_]; [lia|].
    cbn [orb]. rewrite len_length, Hn.
    assert (Hb : ((paragraph_index <? 0) || (paragraph_index >=? Z.of_nat n))%Z = true).
    { apply Bool.orb_true_iff. destruct Hidx as [H|H].
      - left. now apply Z.ltb_lt.
      - right. apply Z.geb_le. lia. }
    rewrite Hb. reflexivity.
  - unfold error_msg. now rewrite len_length, Hn.
  - unfold error_msg. rewrite len_length, Hn.
    exists ("Paragraph index " ++ str_of_Z paragraph_index
              ++ " out of range on page " ++ str_of_Z page_number ++ ". Found "),
           " paragraphs.".
    now rewrite <- !app_assoc.
Qed.

End RangeCheck.

(** No paragraph on the page and index 0: the range error, with count 0. *)
Lemma index_out_of_range_raises_witness :
  exists msg,
    extract_paragraph Qminus (fun _ => true) (fun _ => Ok [[LF]; "  "])
      0%Q 1%Q "doc.pdf" 2 0 = Raise (ValueError msg) /\
    msg = "Paragraph index 0 out of range on page 2. Found 0 paragraphs." /\
    contains "0" msg.
Proof.
  apply (index_out_of_range_raises Q Qminus (fun _ => true) (fun _ => Ok [[LF]; "  "])
           0%Q 1%Q "doc.pdf" 2 0 [[LF]; "  "] 0).
  - reflexivity.
  - reflexivity.
  - vm_compute. split; discriminate.
  - reflexivity.
  - right. vm_compute. discriminate.
Defined.

End PdfExtractorProps.

(** ** transcript_service: the fallback of [clean_transcript] *)

Module TranscriptProps.

Import openai transcript_service.

Section Fallback.

Variable model_name : str.
Variable create : request -> result ChatCompletion.

(** Whatever the [try] block raises, the raw text comes back. *)
Lemma clean_transcript_try_raises (raw_text : str) (e : exn) :
  clean_transcript_try model_name create raw_text = Raise e ->
  clean_transcript model_name create raw_text = raw_text.
Proof. intros H. unfold clean_transcript. now rewrite H. Qed.

(** C2.  When the remote completion call raises, whatever the exception,
    [clean_transcript] returns its argument unchanged: its value is a
    string, never an exception. *)
Theorem failing_call_returns_raw_text (raw_text : str) (e : exn) :
  create (cleaning_request model_name raw_text) = Raise e ->
  clean_transcript model_name create raw_text = raw_text.
Proof.
  intros H. apply clean_transcript_try_raises with (e := e).
  unfold clean_transcript_try. now rewrite H.
Qed.

(** A completion with no choice, or with a content that is [None], ends the
    same way. *)
Lemma unusable_completion_returns_raw_text (raw_text : str) (response : ChatCompletion) :
  create (cleaning_request model_name raw_text) = Ok response ->
  choices response = [] \/ (exists rest, choices response = None :: rest) ->
  clean_transcript model_name create raw_text = raw_text.
Proof.
  intros H Hc. unfold clean_transcript, clean_transcript_try, first_content.
  rewrite H. cbn [bind].
  destruct Hc as [-> | [rest ->]]; reflexivity.
Qed.

End Fallback.

Lemma failing_call_returns_raw_text_witness :
  clean_transcript "llama3.1:8b" (fun _ => Raise (OtherError "Connection error."))
    "teh quick  brown fox" = "teh quick  brown fox".
Proof.
  apply (failing_call_returns_raw_text "llama3.1:8b"
           (fun _ => Raise (OtherError "Connection error."))
           "teh quick  brown fox" (OtherError "Connection error.")).
  reflexivity.
Defined.

End TranscriptProps.

(** ** mindmap_service: hierarchy extraction *)

Module ExtractorProps.

Import openai mindmap_service.

Section Extraction.

Variable model_name : str.
Variable create : request -> result ChatCompletion.
Variable json_loads : str -> result json.


(** Any other exception of the parser, and any exception of the call, is
    raised again. *)
Lemma other_failures_propagate (transcript_text : str) (e : exn) :
  create (mindmap_request model_name transcript_text) = Raise e ->
  (forall msg, e <> JSONDecodeError msg) ->
  generate_mindmap_json model_name create json_loads transcript_text = Raise e.
Proof.
  intros Hc He. unfold generate_mindmap_json. rewrite Hc.
  destruct e; try reflexivity. now elim (He msg).
Qed.

End Extraction.



(** *** The cleanup before parsing *)

(** The JSON object of the examples: an object with the keys [root] and
    [children]. *)
Definition enclosed_json : str :=
  "{" ++ [DQUOTE] ++ "root" ++ [DQUOTE] ++ ": " ++ [DQUOTE] ++ "T" ++ [DQUOTE] ++ ", "
      ++ [DQUOTE] ++ "children" ++ [DQUOTE] ++ ": []}".

(** C8 (fails on the code).  A fence opened with the language tag is
    stripped, and so is the closing fence; a plain opening fence stays in
    front of the object, so what is handed to the parser starts with three
    backquotes. *)
Theorem plain_opening_fence_is_kept :
  clean_json_response ("```json" ++ [LF] ++ enclosed_json ++ [LF] ++ "```") = enclosed_json /\
  clean_json_response ("```" ++ [LF] ++ enclosed_json ++ [LF] ++ "```")
  = "```" ++ [LF] ++ enclosed_json.
Proof. split; reflexivity. Qed.

(** With a parser that, like [json.loads], rejects a text starting with a
    backquote, the plainly fenced object ends as the fallback tree. *)
Lemma plain_fence_ends_as_error_node
    (model_name : str) (json_loads : str -> result json) (transcript_text : str) :
  (forall s, exists msg, json_loads ("`" ++ s) = Raise (JSONDecodeError msg)) ->
  generate_mindmap_json model_name
    (fun _ => Ok {| choices := [Some ("```" ++ [LF] ++ enclosed_json ++ [LF] ++ "```")] |})
    json_loads transcript_text = Ok error_node.
Proof.
  intros Hrej. unfold generate_mindmap_json. cbn [first_content choices].
  assert (E : clean_json_response ("```" ++ [LF] ++ enclosed_json ++ [LF] ++ "```")
              = "```" ++ [LF] ++ enclosed_json) by reflexivity.
  rewrite E.
  destruct (Hrej ("``" ++ [LF] ++ enclosed_json)) as [msg Hmsg].
  change ("```" ++ [LF] ++ enclosed_json) with ("`" ++ "``" ++ [LF] ++ enclosed_json).
  now rewrite Hmsg.
Qed.

End ExtractorProps.

(** ** mindmap_service: rendering *)

Module RendererFacts.

Import mindmap_service Renderer StrFacts.

(** *** Trees and their traversal *)

Lemma topic_induction (P : topic -> Prop) :
  (forall label subtopics, Forall P subtopics -> P (Topic label subtopics)) ->
  forall t, P t.
Proof.
  intros step. fix IH 1. intros [label subtopics]. apply step.
  induction subtopics as [|t ts IHts]; constructor; [apply IH | exact IHts].
Qed.

Lemma preorder_unfold (label : str) (subtopics : list topic) (parent_id : option str) (k : Z) :
  preorder (Topic label subtopics) parent_id k =
  {| parent := parent_id; ident := k; visited_label := label |}
  :: preorder_forest subtopics (Some (node_name k)) (k + 1)%Z.
Proof.
  cbn [preorder]. f_equal. generalize (k + 1)%Z.
  induction subtopics as [|t ts IH]; intros k'; [reflexivity|].
  cbn [preorder_forest]. now rewrite IH.
Qed.

Lemma size_unfold (label : str) (subtopics : list topic) :
  size (Topic label subtopics) = S (list_sum (map size subtopics)).
Proof. reflexivity. Qed.

Lemma length_preorder_forest (ts : list topic) :
  Forall (fun t => forall p k, List.length (preorder t p k) = size t) ts ->
  forall p k, List.length (preorder_forest ts p k) = list_sum (map size ts).
Proof.
  induction 1 as [|t ts Ht _ IH]; intros p k; [reflexivity|].
  cbn [preorder_forest map list_sum]. now rewrite length_app, Ht, IH.
Qed.

Lemma length_preorder (t : topic) :
  forall p k, List.length (preorder t p k) = size t.
Proof.
  induction t as [label ts IH] using topic_induction. intros p k.
  rewrite preorder_unfold, size_unfold. cbn [List.length].
  now rewrite (length_preorder_forest ts IH).
Qed.

Lemma numbers_from_S (k : Z) (n : nat) :
  numbers_from k (S n) = k :: numbers_from (k + 1) n.
Proof.
  unfold numbers_from. cbn [seq map]. f_equal; [lia|].
  rewrite <- seq_shift, map_map. apply map_ext. intros i. lia.
Qed.

Lemma numbers_from_app (k : Z) (n m : nat) :
  numbers_from k (n + m) = numbers_from k n ++ numbers_from (k + Z.of_nat n) m.
Proof.
  revert k. induction n as [|n IH]; intros k.
  - change (Z.of_nat 0) with 0%Z. now rewrite Z.add_0_r.
  - cbn [Nat.add]. rewrite !numbers_from_S, IH. cbn [app].
    replace (k + 1 + Z.of_nat n)%Z with (k + Z.of_nat (S n))%Z by lia. reflexivity.
Qed.

Lemma idents_preorder_forest (ts : list topic) :
  Forall (fun t => forall p k, map ident (preorder t p k) = numbers_from k (size t)) ts ->
  forall p k, map ident (preorder_forest ts p k) = numbers_from k (list_sum (map size ts)).
Proof.
  induction 1 as [|t ts Ht _ IH]; intros p k; [reflexivity|].
  cbn [preorder_forest].
  change (list_sum (map size (t :: ts))) with (size t + list_sum (map size ts))%nat.
  now rewrite map_app, Ht, IH, numbers_from_app.
Qed.

(** The traversal numbers the nodes [k], [k + 1], ... in the order of the
    visit. *)
Lemma idents_preorder (t : topic) :
  forall p k, map ident (preorder t p k) = numbers_from k (size t).
Proof.
  induction t as [label ts IH] using topic_induction. intros p k.
  rewrite preorder_unfold, size_unfold, numbers_from_S. cbn [map ident].
  now rewrite (idents_preorder_forest ts IH).
Qed.


(** *** Identifiers as strings *)




(** *** Sanitization *)

(** [replace] of the double quote by the single quote is [sanitize]. *)
Lemma replace_quote (label : str) :
  replace [DQUOTE] [SQUOTE] label = sanitize label.
Proof.
  unfold replace. induction label as [|c s IH]; [reflexivity|].
  cbn [replace_from startswith sanitize map].
  change (List.length [DQUOTE] - 1)%nat with 0%nat.
  rewrite Bool.andb_true_r, (Ascii.eqb_sym DQUOTE c), IH.
  destruct (Ascii.eqb c DQUOTE); reflexivity.
Qed.

Lemma sanitize_no_quote (label : str) : quotes (sanitize label) = 0%nat.
Proof.
  unfold quotes. induction label as [|c s IH]; [reflexivity|].
  cbn [sanitize map count_occ].
  destruct (Ascii.eqb_spec c DQUOTE) as [->|Hc].
  - destruct (ascii_dec SQUOTE DQUOTE) as [E|_]; [discriminate E | exact IH].
  - destruct (ascii_dec c DQUOTE) as [E|_]; [contradiction | exact IH].
Qed.

(** A label without double quote is left as it is. *)
Lemma sanitize_id (label : str) : quotes label = 0%nat -> sanitize label = label.
Proof.
  unfold quotes. induction label as [|c s IH]; [reflexivity|].
  cbn [sanitize map count_occ].
  destruct (ascii_dec c DQUOTE) as [->|Hc]; [discriminate|].
  intros H. apply Ascii.eqb_neq in Hc. rewrite Hc. f_equal. now apply IH.
Qed.

(** *** The object of a topic *)

Lemma wire_unfold (key label : str) (subtopics : list topic) :
  wire key (Topic label subtopics) =
  JDict [ (key, JStr label); ("children", JList (map (wire "name") subtopics)) ].
Proof. reflexivity. Qed.

Lemma sanitized_label_wire (key label : str) (children : json) :
  label_key key ->
  sanitized_label [ (key, JStr label); ("children", children) ] = Ok (sanitize label).
Proof.
  intros Hkey. unfold sanitized_label.
  set (d := [ (key, JStr label); ("children", children) ]).
  assert (E : dict_get d "name" (dict_get d "root" (JStr "Topic")) = JStr label)
    by (destruct Hkey as [-> | ->]; reflexivity).
  now rewrite E, replace_quote.
Qed.

Lemma children_wire (key label : str) (children : json) :
  label_key key ->
  dict_get [ (key, JStr label); ("children", children) ] "children" (JList []) = children.
Proof. intros [-> | ->]; reflexivity. Qed.

(** *** Depths *)

Lemma list_max_cons (x : nat) (l : list nat) :
  list_max (x :: l) = Nat.max x (list_max l).
Proof. reflexivity. Qed.

Lemma json_depth_list (l : list json) :
  json_depth (JList l) = S (list_max (map json_depth l)).
Proof.
  cbn [json_depth]. f_equal.
  induction l as [|x l IH]; [reflexivity|].
  cbn [map]. now rewrite list_max_cons, IH.
Qed.

Lemma json_depth_dict (d : list (str * json)) :
  json_depth (JDict d) = S (list_max (map (fun kv => json_depth (snd kv)) d)).
Proof.
  cbn [json_depth]. f_equal.
  induction d as [|[k x] d IH]; [reflexivity|].
  cbn [map snd]. now rewrite list_max_cons, IH.
Qed.

Lemma list_max_map_le {A} (f g : A -> nat) (l : list A) :
  Forall (fun x => f x <= g x)%nat l ->
  (list_max (map f l) <= list_max (map g l))%nat.
Proof.
  induction 1 as [|x l Hx _ IH]; [reflexivity|].
  cbn [map]. rewrite !list_max_cons. lia.
Qed.

Lemma height_le_json_depth (t : topic) :
  forall key, (height t <= json_depth (wire key t))%nat.
Proof.
  induction t as [label ts IH] using topic_induction. intros key.
  rewrite wire_unfold, json_depth_dict.
  cbn [map snd height]. rewrite !list_max_cons.
  rewrite json_depth_list, map_map.
  assert (H : (list_max (map height ts)
               <= list_max (map (fun t => json_depth (wire "name" t)) ts))%nat).
  { apply list_max_map_le. eapply Forall_impl; [|exact IH].
    intros t Ht. apply Ht. }
  lia.
Qed.

(** *** The run of [json_to_mermaid] on a topic tree *)

Definition renders_at (depth : nat) (t : topic) : Prop :=
  forall parent_id k,
    json_to_mermaid_rec depth (wire "name" t) parent_id k
    = Ok (map declaration_of (preorder t parent_id k), (k + Z.of_nat (size t))%Z).

Lemma for_children_topics (depth : nat) (current_id : str) (ts : list topic) :
  Forall (renders_at depth) ts ->
  forall lines k,
    for_children (json_to_mermaid_rec depth) current_id (map (wire "name") ts) lines k
    = Ok (lines ++ map declaration_of (preorder_forest ts (Some current_id) k),
          (k + Z.of_nat (list_sum (map size ts)))%Z).
Proof.
  induction 1 as [|t ts Ht _ IH]; intros lines k.
  - cbn [map for_children preorder_forest list_sum fold_right].
    now rewrite app_nil_r, Z.add_0_r.
  - cbn [map for_children preorder_forest]. rewrite Ht. cbn [bind].
    rewrite IH, map_app, app_assoc.
    change (list_sum (size t :: map size ts)) with (size t + list_sum (map size ts))%nat.
    do 2 f_equal. lia.
Qed.

Lemma render_rec (t : topic) :
  forall key depth parent_id k,
    label_key key ->
    (height t <= depth)%nat ->
    json_to_mermaid_rec depth (wire key t) parent_id k
    = Ok (map declaration_of (preorder t parent_id k), (k + Z.of_nat (size t))%Z).
Proof.
  induction t as [label ts IH] using topic_induction.
  intros key depth parent_id k Hkey Hdepth.
  destruct depth as [|depth]; [cbn [height] in Hdepth; lia|].
  rewrite wire_unfold. cbn [json_to_mermaid_rec].
  rewrite (sanitized_label_wire key label _ Hkey). cbn [bind].
  rewrite (children_wire key label _ Hkey). cbn [iterate bind].
  rewrite for_children_topics.
  - rewrite preorder_unfold, size_unfold. cbn [map app].
    do 2 f_equal. lia.
  - rewrite Forall_forall in IH |- *. intros t Hin parent_id' k'.
    apply (IH t Hin "name"); [now right|].
    cbn [height] in Hdepth.
    assert (H : (height t <= list_max (map height ts))%nat).
    { assert (HF := proj1 (list_max_le (map height ts) (list_max (map height ts))) (le_n _)).
      rewrite Forall_forall in HF. apply HF. now apply in_map. }
    lia.
Qed.

(** The run on the wire form of a tree: one declaration per visited node,
    in the order of the visit, and the next free number. *)
Lemma render_topic (key : str) (t : topic) (parent_id : option str) (k : Z) :
  label_key key ->
  json_to_mermaid (wire key t) parent_id k
  = Ok (map declaration_of (preorder t parent_id k), (k + Z.of_nat (size t))%Z).
Proof.
  intros Hkey. unfold json_to_mermaid.
  apply render_rec; [exact Hkey | apply height_le_json_depth].
Qed.

(** *** The depth bound of [json_to_mermaid] is never met *)

Lemma json_depth_pos (v : json) : (1 <= json_depth v)%nat.
Proof. destruct v; cbn [json_depth]; lia. Qed.

Lemma dict_get_depth (d : list (str * json)) (key : str) (default : json) :
  dict_get d key default = default \/
  (json_depth (dict_get d key default) < json_depth (JDict d))%nat.
Proof.
  induction d as [|[k v] d IH]; [now left|].
  rewrite json_depth_dict. cbn [dict_get map snd]. rewrite list_max_cons.
  destruct (PyStr.eqb k key).
  - right. lia.
  - destruct IH as [IH|IH]; [now left|]. right.
    rewrite json_depth_dict in IH. lia.
Qed.

Lemma iterate_depth (v : json) (children : list json) (child : json) :
  iterate v = Ok children -> In child children ->
  (json_depth child <= json_depth v)%nat /\
  (forall l, v = JList l -> json_depth child < json_depth v)%nat.
Proof.
  intros Hit Hin. destruct v; try discriminate Hit; cbn [iterate] in Hit;
    injection Hit as <-.
  - (* a string: its characters *)
    apply in_map_iff in Hin as (c & <- & _). split; [reflexivity | discriminate].
  - (* a list: its elements *)
    assert (H : (json_depth child <= list_max (map json_depth l))%nat).
    { assert (HF := proj1 (list_max_le (map json_depth l) (list_max (map json_depth l)))
                          (le_n _)).
      rewrite Forall_forall in HF. apply HF. now apply in_map. }
    rewrite json_depth_list. split; [lia | intros; lia].
  - (* a dict: its keys *)
    apply in_map_iff in Hin as (kv & <- & _).
    split; [apply json_depth_pos | discriminate].
Qed.

Lemma children_depth (d : list (str * json)) (children : list json) (child : json) :
  iterate (dict_get d "children" (JList [])) = Ok children ->
  In child children ->
  (json_depth child < json_depth (JDict d))%nat.
Proof.
  intros Hit Hin.
  destruct (dict_get_depth d "children" (JList [])) as [E|Hlt].
  - rewrite E in Hit. injection Hit as <-. destruct Hin.
  - destruct (iterate_depth _ _ _ Hit Hin) as [Hle _]. lia.
Qed.

Lemma for_children_ext
    (call1 call2 : json -> option str -> Z -> result (list str * Z))
    (current_id : str) (children : list json) :
  (forall child, In child children ->
                 forall p k, call1 child p k = call2 child p k) ->
  forall lines k,
    for_children call1 current_id children lines k
    = for_children call2 current_id children lines k.
Proof.
  induction children as [|c cs IH]; intros Hext lines k; [reflexivity|].
  cbn [for_children]. rewrite (Hext c (or_introl eq_refl)).
  destruct (call2 c (Some current_id) k) as [[child_lines next_id]|e]; [|reflexivity].
  cbn [bind]. apply IH. intros child Hin. apply Hext. now right.
Qed.

Lemma rec_depth_enough (n : nat) :
  forall node depth1 depth2,
    (json_depth node <= n)%nat -> (n <= depth1)%nat -> (n <= depth2)%nat ->
    forall p k,
      json_to_mermaid_rec depth1 node p k = json_to_mermaid_rec depth2 node p k.
Proof.
  induction n as [|n IH]; intros node depth1 depth2 Hn H1 H2 p k.
  - pose proof (json_depth_pos node). lia.
  - destruct depth1 as [|depth1]; [lia|]. destruct depth2 as [|depth2]; [lia|].
    destruct node; try reflexivity.
    cbn [json_to_mermaid_rec].
    destruct (sanitized_label d) as [label|e]; [|reflexivity]. cbn [bind].
    destruct (iterate (dict_get d "children" (JList []))) as [children|e] eqn:Hit;
      [|reflexivity].
    cbn [bind]. apply for_children_ext. intros child Hin p' k'.
    apply IH; try lia.
    pose proof (children_depth d children child Hit Hin). lia.
Qed.

(** With any bound that is at least the depth of the value, the recursion
    gives what [json_to_mermaid] gives: the bound is a device of the
    definition, and the depth-exceeded branch is never the answer. *)
Lemma json_to_mermaid_depth_enough (node : json) (depth : nat) (p : option str) (k : Z) :
  (json_depth node <= depth)%nat ->
  json_to_mermaid_rec depth node p k = json_to_mermaid node p k.
Proof.
  intros H. unfold json_to_mermaid.
  apply (rec_depth_enough (json_depth node)); auto.
Qed.

Lemma for_children_no_depth_error
    (call : json -> option str -> Z -> result (list str * Z))
    (current_id : str) (children : list json) (msg : str) :
  (forall child, In child children ->
                 forall p k, call child p k <> Raise (OtherError msg)) ->
  forall lines k,
    for_children call current_id children lines k <> Raise (OtherError msg).
Proof.
  induction children as [|c cs IH]; intros Hcall lines k; [discriminate|].
  cbn [for_children].
  destruct (call c (Some current_id) k) as [[child_lines next_id]|e] eqn:Hc.
  - cbn [bind]. apply IH. intros child Hin. apply Hcall. now right.
  - cbn [bind]. rewrite <- Hc. apply Hcall. now left.
Qed.

Lemma rec_no_depth_error (n : nat) (msg : str) :
  forall node depth,
    (json_depth node <= n)%nat -> (n <= depth)%nat ->
    forall p k, json_to_mermaid_rec depth node p k <> Raise (OtherError msg).
Proof.
  induction n as [|n IH]; intros node depth Hn Hd p k.
  - pose proof (json_depth_pos node). lia.
  - destruct depth as [|depth]; [lia|].
    destruct node; try discriminate.
    cbn [json_to_mermaid_rec].
    destruct (sanitized_label d) as [label|e] eqn:Hlabel.
    + cbn [bind].
      destruct (iterate (dict_get d "children" (JList []))) as [children|e] eqn:Hit.
      * cbn [bind]. apply for_children_no_depth_error. intros child Hin p' k'.
        apply IH; [|lia].
        pose proof (children_depth d children child Hit Hin). lia.
      * cbn [bind]. unfold iterate in Hit.
        destruct (dict_get d "children" (JList [])); try discriminate Hit;
          injection Hit as <-; discriminate.
    + cbn [bind]. unfold sanitized_label in Hlabel.
      destruct (dict_get d "name" (dict_get d "root" (JStr "Topic")));
        try discriminate Hlabel; injection Hlabel as <-; discriminate.
Qed.

(** [json_to_mermaid] never answers with the error of the depth bound. *)
Lemma json_to_mermaid_within_depth (node : json) (p : option str) (k : Z) (msg : str) :
  json_to_mermaid node p k <> Raise (OtherError msg).
Proof.
  unfold json_to_mermaid. apply (rec_no_depth_error (json_depth node)); auto.
Qed.

(** *** Quotes in the declarations *)

Lemma quotes_app (a b : str) : quotes (a ++ b) = (quotes a + quotes b)%nat.
Proof. apply count_occ_app. Qed.

Lemma quotes_uint (u : Decimal.uint) :
  quotes (String.list_ascii_of_string (DecimalString.NilEmpty.string_of_uint u)) = 0%nat.
Proof. induction u; cbn; auto. Qed.

Lemma quotes_str_of_Z (z : Z) : quotes (str_of_Z z) = 0%nat.
Proof.
  unfold str_of_Z. destruct (Z.to_int z) as [u|u]; cbn.
  - apply quotes_uint.
  - apply quotes_uint.
Qed.

Lemma quotes_node_name (k : Z) : quotes (node_name k) = 0%nat.
Proof. unfold node_name. now rewrite quotes_app, quotes_str_of_Z. Qed.

Lemma quotes_declaration (parent_id : option str) (current_id label : str) :
  unquoted parent_id -> quotes current_id = 0%nat -> quotes label = 0%nat ->
  quotes (declaration parent_id current_id label) = 2%nat.
Proof.
  intros Hp Hc Hl. unfold declaration.
  destruct parent_id as [[|c s]|].
  - unfold node_line. rewrite !quotes_app, Hc, Hl. reflexivity.
  - unfold edge_line. rewrite !quotes_app, (Hp (c :: s) eq_refl), Hc, Hl. reflexivity.
  - unfold node_line. rewrite !quotes_app, Hc, Hl. reflexivity.
Qed.

Lemma sanitized_label_unquoted (d : list (str * json)) (label : str) :
  sanitized_label d = Ok label -> quotes label = 0%nat.
Proof.
  unfold sanitized_label.
  destruct (dict_get d "name" (dict_get d "root" (JStr "Topic"))); try discriminate.
  intros H. assert (E : label = sanitize s) by (rewrite <- replace_quote; congruence).
  rewrite E. apply sanitize_no_quote.
Qed.

Lemma for_children_well_quoted
    (call : json -> option str -> Z -> result (list str * Z))
    (current_id : str) (children : list json) :
  (forall child k lines k',
      call child (Some current_id) k = Ok (lines, k') -> well_quoted lines) ->
  forall lines k lines' k',
    well_quoted lines ->
    for_children call current_id children lines k = Ok (lines', k') ->
    well_quoted lines'.
Proof.
  intros Hcall. induction children as [|c cs IH]; intros lines k lines' k' Hl Hrun.
  - cbn [for_children] in Hrun. now injection Hrun as <- <-.
  - cbn [for_children] in Hrun.
    destruct (call c (Some current_id) k) as [[child_lines next_id]|e] eqn:Hc;
      [|discriminate Hrun].
    cbn [bind] in Hrun.
    eapply IH; [|exact Hrun].
    apply Forall_app. split; [exact Hl | exact (Hcall _ _ _ _ Hc)].
Qed.

(** Whatever the value, every line that [json_to_mermaid] returns has
    exactly two double quotes: the two that delimit its label. *)
Lemma rec_well_quoted (depth : nat) :
  forall node parent_id k lines k',
    unquoted parent_id ->
    json_to_mermaid_rec depth node parent_id k = Ok (lines, k') ->
    well_quoted lines.
Proof.
  induction depth as [|depth IH]; intros node parent_id k lines k' Hp Hrun;
    [discriminate Hrun|].
  destruct node; try discriminate Hrun.
  cbn [json_to_mermaid_rec] in Hrun.
  destruct (sanitized_label d) as [label|e] eqn:Hlabel; [|discriminate Hrun].
  cbn [bind] in Hrun.
  destruct (iterate (dict_get d "children" (JList []))) as [children|e];
    [|discriminate Hrun].
  cbn [bind] in Hrun.
  eapply for_children_well_quoted; [| |exact Hrun].
  - intros child k1 lines1 k1' Hchild. eapply IH; [|exact Hchild].
    intros s Hs. injection Hs as <-. apply (quotes_node_name k).
  - constructor; [|constructor].
    apply quotes_declaration; [exact Hp | apply (quotes_node_name k) |].
    exact (sanitized_label_unquoted d label Hlabel).
Qed.

End RendererFacts.

Module RendererProps.

Import mindmap_service Renderer StrFacts RendererFacts.


Lemma declaration_carries (parent_id : option str) (k : Z) (label : str) :
  unquoted parent_id ->
  carries (declaration parent_id (node_name k) (sanitize label)) label.
Proof.
  intros Hp. unfold declaration.
  assert (Hroot : carries (node_line (node_name k) (sanitize label)) label).
  { exists ("    " ++ node_name k). split.
    - now rewrite quotes_app, quotes_node_name.
    - unfold node_line. now rewrite <- !app_assoc. }
  destruct parent_id as [[|c s]|]; try exact Hroot.
  exists ("    " ++ (c :: s) ++ " --> " ++ node_name k). split.
  - now rewrite !quotes_app, (Hp (c :: s) eq_refl), quotes_node_name.
  - unfold edge_line. now rewrite <- !app_assoc.
Qed.

Lemma carries_preorder_forest (ts : list topic) :
  Forall (fun t => forall p k, unquoted p ->
            Forall2 carries (map declaration_of (preorder t p k)) (labels t)) ts ->
  forall p k, unquoted p ->
    Forall2 carries (map declaration_of (preorder_forest ts p k)) (flat_map labels ts).
Proof.
  induction 1 as [|t ts Ht _ IH]; intros p k Hp; [constructor|].
  cbn [preorder_forest flat_map]. rewrite map_app.
  apply Forall2_app; [now apply Ht | now apply IH].
Qed.

Lemma carries_preorder (t : topic) :
  forall p k, unquoted p ->
    Forall2 carries (map declaration_of (preorder t p k)) (labels t).
Proof.
  induction t as [label ts IH] using topic_induction. intros p k Hp.
  rewrite preorder_unfold. cbn [map labels]. constructor.
  - now apply declaration_carries.
  - apply carries_preorder_forest; [exact IH|].
    intros s Hs. injection Hs as <-. apply quotes_node_name.
Qed.

(** Whatever value is rendered, a tree of topics or not, the lines that
    come back have two double quotes each. *)
Lemma rendered_lines_well_quoted (node : json) (lines : list str) (next : Z) :
  json_to_mermaid node None 0 = Ok (lines, next) -> well_quoted lines.
Proof.
  unfold json_to_mermaid. apply rec_well_quoted. intros s Hs. discriminate Hs.
Qed.

(** C7.  In the rendering of a tree, the line of each node carries the
    label of the node with every double quote replaced by a single quote,
    between the two double quotes that delimit it; these two are the only
    double quotes of the line, so no line leaves a quoted string open. *)
Theorem labels_are_sanitized (t : topic) :
  exists lines next,
    json_to_mermaid (wire_root t) None 0 = Ok (lines, next) /\
    Forall2 carries lines (labels t) /\
    Forall (fun line => quotes line = 2%nat) lines.
Proof.
  assert (Hrun := render_topic "root" t None 0 (or_introl eq_refl)).
  eexists. eexists. split; [exact Hrun | split].
  - apply carries_preorder. intros s Hs. discriminate Hs.
  - exact (rendered_lines_well_quoted _ _ _ Hrun).
Qed.



(** The numbers of two sibling subtrees lie apart: those of the later one
    start where those of the earlier one stop. *)
Lemma sibling_numbers_apart (t1 t2 : topic) (parent_id : option str) (k : Z) :
  map ident (preorder_forest [t1; t2] parent_id k)
  = numbers_from k (size t1) ++ numbers_from (k + Z.of_nat (size t1)) (size t2).
Proof.
  cbn [preorder_forest]. rewrite app_nil_r, map_app. now rewrite !idents_preorder.
Qed.

End RendererProps.

(** ** cli_mindmap: the names of the artifacts *)

Module CliProps.

Import cli_mindmap Naming StrFacts.

Lemma startswith_app (p s : str) :
  startswith p s = true -> exists r, s = p ++ r.
Proof.
  revert s. induction p as [|a p IH]; intros s H; [now exists s|].
  destruct s as [|b s]; [discriminate H|].
  cbn [startswith] in H. apply Bool.andb_true_iff in H as [Hab Hps].
  apply Ascii.eqb_eq in Hab as ->. destruct (IH s Hps) as [r ->]. now exists r.
Qed.

Lemma differ_app (a b u v : str) : differ a b = true -> a ++ u <> b ++ v.
Proof.
  revert b. induction a as [|x a IH]; intros b H; [discriminate H|].
  destruct b as [|y b]; [discriminate H|].
  cbn [differ] in H. cbn [app]. intros E. injection E as Exy Eab.
  apply Bool.orb_true_iff in H as [H|H].
  - subst y. now rewrite Ascii.eqb_refl in H.
  - exact (IH b H Eab).
Qed.

(** Without an occurrence, [replace] changes nothing. *)
Lemma replace_from_absent (old new s : str) :
  occurs old s = false -> replace_from old new 0 s = s.
Proof.
  induction s as [|c s IH]; intros H; [reflexivity|].
  cbn [occurs] in H. apply Bool.orb_false_iff in H as [Hst Hocc].
  cbn [replace_from]. rewrite Hst. f_equal. exact (IH Hocc).
Qed.

(** With an occurrence, and a replacement that differs from what it
    replaces at an index of both, [replace] changes the string. *)
Lemma replace_from_present (old new s : str) :
  differ new old = true -> occurs old s = true -> replace_from old new 0 s <> s.
Proof.
  intros Hd. induction s as [|c s IH]; intros H.
  - cbn [occurs] in H. rewrite Bool.orb_false_r in H.
    destruct old; [destruct new; discriminate Hd | discriminate H].
  - cbn [replace_from]. destruct (startswith old (c :: s)) eqn:Hst.
    + destruct (startswith_app _ _ Hst) as [r Er]. rewrite Er.
      now apply differ_app.
    + cbn [occurs] in H. rewrite Hst in H. cbn [orb] in H.
      intros E. injection E as E. exact (IH H E).
Qed.



Lemma derived_filename_absent (ext output : str) :
  occurs ".html" output = false -> derived_filename ext output = output ++ ext.
Proof.
  intros H. unfold derived_filename, replace.
  rewrite (replace_from_absent ".html" ext output H). now rewrite eqb_refl.
Qed.

Lemma derived_filename_present (ext output : str) :
  differ ext ".html" = true ->
  occurs ".html" output = true ->
  derived_filename ext output = replace ".html" ext output.
Proof.
  intros Hd H. unfold derived_filename.
  assert (E : PyStr.eqb (replace ".html" ext output) output = false).
  { apply eqb_false_iff. exact (replace_from_present ".html" ext output Hd H). }
  now rewrite E.
Qed.



(** Where [.html] occurs, every occurrence is replaced. *)
Lemma names_with_occurrence (output : str) :
  occurs ".html" output = true ->
  artifact_names output
  = (replace ".html" ".txt" output, replace ".html" ".json" output, output).
Proof.
  intros H. unfold artifact_names, txt_filename, json_filename.
  now rewrite !derived_filename_present.
Qed.



End CliProps.

(** ** The tests of the repository and the examples of the specification *)

Module Examples.

Import openai pdf_extractor mindmap_service cli_mindmap Naming.

(** X10.  [test_pdf_extractor_file_not_found]: a path that does not exist
    raises [FileNotFoundError], whatever the page and the index, and the
    reader is not called. *)
Lemma missing_file_raises
    (float : Type) (fsub : float -> float -> float)
    (path_exists : str -> bool) (PdfReader : str -> result (list str))
    (start_time end_time : float) (pdf_path : str) (page_number paragraph_index : Z) :
  path_exists pdf_path = false ->
  extract_paragraph fsub path_exists PdfReader start_time end_time
    pdf_path page_number paragraph_index
  = Raise (FileNotFoundError ("PDF not found at " ++ pdf_path)).
Proof. intros H. unfold extract_paragraph. now rewrite H. Qed.

(** X28.  A page number below 1 or above the number of pages raises
    [ValueError] naming the page, whatever the index: a page number is never
    counted from the end. *)
Lemma page_out_of_range_raises
    (float : Type) (fsub : float -> float -> float)
    (path_exists : str -> bool) (PdfReader : str -> result (list str))
    (start_time end_time : float) (pdf_path : str) (page_number paragraph_index : Z)
    (pages : list str) :
  path_exists pdf_path = true ->
  PdfReader pdf_path = Ok pages ->
  (page_number < 1 \/ page_number > len pages)%Z ->
  extract_paragraph fsub path_exists PdfReader start_time end_time
    pdf_path page_number paragraph_index
  = Raise (ValueError ("Page " ++ str_of_Z page_number ++ " out of range.")).
Proof.
  intros Hex Hread Hpage. unfold extract_paragraph, extract_paragraph_try.
  rewrite Hex, Hread. cbn [negb bind].
  assert (E : ((page_number - 1 <? 0) || (page_number - 1 >=? len pages))%Z = true).
  { apply Bool.orb_true_iff. destruct Hpage as [H|H].
    - left. apply Z.ltb_lt. lia.
    - right. apply Z.geb_le. lia. }
  now rewrite E.
Qed.

(** A one-page document whose text is two paragraphs: index 1 gives the
    second. *)
Example second_paragraph_of_two :
  extract_paragraph Qminus (fun _ => true)
    (fun _ => Ok ["Para one." ++ [LF; LF] ++ "Para two."]) 0%Q 1%Q "doc.pdf" 1 1
  = Ok {| text := "Para two."; page := 1; paragraph_index := 1; length := 9;
          extraction_time := Qminus 1 0 |}.
Proof. reflexivity. Qed.

(** [test_html_generation]: the document names the diagram block and the
    labels. *)
Example html_of_test_topic :
  exists html,
    save_mindmap_html
      (wire_root (Topic "Test Topic" [Topic "Subtopic A" []; Topic "Subtopic B" []]))
      "test_output.html" = Ok ("test_output.html", html) /\
    occurs "mermaid" html = true /\
    occurs "Test Topic" html = true /\
    occurs "Subtopic A" html = true.
Proof. eexists. repeat split; vm_compute; reflexivity. Qed.

(** The fallback node renders like any tree. *)
Example error_node_renders :
  json_to_mermaid error_node None 0
  = Ok ([ node_line "node0" "Error Parsing JSON";
          edge_line "node0" "node1" "Raw Text" ], 2%Z).
Proof. reflexivity. Qed.

(** Values that are no tree of topics raise as the interpreter does. *)
Example children_not_iterable :
  json_to_mermaid (JDict [("root", JStr "T"); ("children", JNull)]) None 0
  = Raise (TypeError "object is not iterable").
Proof. reflexivity. Qed.

Example label_not_a_string :
  json_to_mermaid (JDict [("root", JInt 3); ("children", JList [])]) None 0
  = Raise (AttributeError "object has no attribute 'replace'").
Proof. reflexivity. Qed.

(** The default output name and some others. *)
Example names_of_default_output :
  artifact_names "final_mindmap.html"
  = ("final_mindmap.txt", "final_mindmap.json", "final_mindmap.html").
Proof. reflexivity. Qed.

Example names_with_inner_html :
  artifact_names "a.html.bak" = ("a.txt.bak", "a.json.bak", "a.html.bak").
Proof. reflexivity. Qed.

Lemma missing_file_raises_witness :
  extract_paragraph Qminus (fun _ => false)
    (fun _ => Raise (OtherError "the reader is not called")) 0%Q 1%Q "non_existent_file.pdf" 1 0
  = Raise (FileNotFoundError "PDF not found at non_existent_file.pdf").
Proof.
  apply (missing_file_raises Q Qminus (fun _ => false)
           (fun _ => Raise (OtherError "the reader is not called")) 0%Q 1%Q
           "non_existent_file.pdf" 1 0).
  reflexivity.
Defined.

Lemma page_out_of_range_raises_witness :
  extract_paragraph Qminus (fun _ => true) (fun _ => Ok ["One."; "Two."]) 0%Q 1%Q
    "doc.pdf" 0 0 = Raise (ValueError "Page 0 out of range.") /\
  extract_paragraph Qminus (fun _ => true) (fun _ => Ok ["One."; "Two."]) 0%Q 1%Q
    "doc.pdf" 3 0 = Raise (ValueError "Page 3 out of range.").
Proof.
  split.
  - apply (page_out_of_range_raises Q Qminus (fun _ => true) (fun _ => Ok ["One."; "Two."])
             0%Q 1%Q "doc.pdf" 0 0 ["One."; "Two."]); try reflexivity.
    left. reflexivity.
  - apply (page_out_of_range_raises Q Qminus (fun _ => true) (fun _ => Ok ["One."; "Two."])
             0%Q 1%Q "doc.pdf" 3 0 ["One."; "Two."]); try reflexivity.
    right. reflexivity.
Defined.

End Examples.

(* ================================================================== *)
(** * Part IV.  Further properties of the code                         *)
(* ================================================================== *)

(** ** Trimming *)

Module StripFacts.

Import StrFacts.

(** A string that does not start with whitespace. *)
Definition starts_clean (s : str) : Prop :=
  match s with
  | [] => True
  | c :: _ => isspace c = false
  end.

(** A string of whitespace only. *)
Definition blank (s : str) : Prop := forallb isspace s = true.

Lemma lstrip_starts_clean (s : str) : starts_clean (lstrip s).
Proof.
  induction s as [|c s IH]; [exact I|].
  cbn [lstrip]. destruct (isspace c) eqn:Hc; [exact IH | exact Hc].
Qed.

Lemma lstrip_fixed (s : str) : starts_clean s -> lstrip s = s.
Proof. destruct s as [|c s]; [reflexivity|]. cbn. now intros ->. Qed.

Lemma lstrip_blank (s : str) : blank s -> lstrip s = [].
Proof.
  unfold blank. induction s as [|c s IH]; [reflexivity|].
  cbn [forallb lstrip]. intros H. apply Bool.andb_true_iff in H as [-> Hs]. auto.
Qed.

Lemma lstrip_nil_blank (s : str) : lstrip s = [] -> blank s.
Proof.
  unfold blank. induction s as [|c s IH]; [reflexivity|].
  cbn [forallb lstrip]. destruct (isspace c); [exact IH | discriminate].
Qed.

(** [lstrip] takes a blank prefix off. *)
Lemma lstrip_split (s : str) : exists ws, blank ws /\ s = ws ++ lstrip s.
Proof.
  induction s as [|c s (ws & Hws & E)]; [now exists []|].
  cbn [lstrip]. destruct (isspace c) eqn:Hc.
  - exists (c :: ws). split.
    + unfold blank in *. cbn [forallb]. now rewrite Hc.
    + cbn [app]. now f_equal.
  - now exists [].
Qed.

Lemma lstrip_blank_app (ws s : str) : blank ws -> lstrip (ws ++ s) = lstrip s.
Proof.
  unfold blank. induction ws as [|c ws IH]; [reflexivity|].
  cbn [forallb app lstrip]. intros H. apply Bool.andb_true_iff in H as [-> Hws]. auto.
Qed.

Lemma lstrip_app (s x : str) : lstrip s <> [] -> lstrip (s ++ x) = lstrip s ++ x.
Proof.
  induction s as [|c s IH]; [contradiction|].
  cbn [app lstrip]. destruct (isspace c); [exact IH | reflexivity].
Qed.

Lemma blank_rev (s : str) : blank s -> blank (rev s).
Proof.
  unfold blank. rewrite !forallb_forall. intros H c Hc. apply H. now apply in_rev.
Qed.

Lemma blank_app (a b : str) : blank a -> blank b -> blank (a ++ b).
Proof. unfold blank. rewrite forallb_app. now intros -> ->. Qed.

(** [strip] takes a blank prefix and a blank suffix off. *)
Lemma strip_split (s : str) :
  exists before after, blank before /\ blank after /\ s = before ++ strip s ++ after.
Proof.
  destruct (lstrip_split s) as (before & Hb & Es).
  destruct (lstrip_split (rev (lstrip s))) as (after & Ha & Er).
  exists before, (rev after). repeat split; [exact Hb | now apply blank_rev |].
  unfold strip, rstrip. rewrite <- rev_app_distr, <- Er, rev_involutive. exact Es.
Qed.

Lemma strip_blank (s : str) : blank s -> strip s = [].
Proof. intros H. unfold strip, rstrip. now rewrite (lstrip_blank s H). Qed.

Lemma strip_nil_blank (s : str) : strip s = [] -> blank s.
Proof.
  intros H. destruct (strip_split s) as (b & a & Hb & Ha & E).
  rewrite E, H. cbn [app]. now apply blank_app.
Qed.

Lemma rstrip_starts_clean (s : str) : starts_clean s -> starts_clean (rstrip s).
Proof.
  destruct s as [|c s]; [intros _; exact I|]. cbn [starts_clean]. intros Hc.
  unfold rstrip. cbn [rev].
  assert (E : lstrip (rev s ++ [c]) = lstrip (rev s) ++ [c]).
  { generalize (rev s). intros l. induction l as [|x l IH].
    - cbn. now rewrite Hc.
    - cbn [app lstrip]. destruct (isspace x); [exact IH | reflexivity]. }
  rewrite E, rev_app_distr. exact Hc.
Qed.

Lemma strip_starts_clean (s : str) : starts_clean (strip s).
Proof. apply rstrip_starts_clean, lstrip_starts_clean. Qed.

(** Trimming a trimmed string changes nothing. *)
Lemma strip_idempotent (s : str) : strip (strip s) = strip s.
Proof.
  unfold strip at 1. rewrite (lstrip_fixed _ (strip_starts_clean s)).
  unfold strip, rstrip. rewrite rev_involutive.
  now rewrite (lstrip_fixed _ (lstrip_starts_clean (rev (lstrip s)))).
Qed.

(** Whitespace after a string does not change what trimming gives. *)
Lemma strip_app_blank (s ws : str) : blank ws -> strip (s ++ ws) = strip s.
Proof.
  intros Hws. destruct (lstrip s) as [|c l] eqn:Hl.
  - rewrite (strip_blank s (lstrip_nil_blank s Hl)).
    apply strip_blank, blank_app; [now apply lstrip_nil_blank | exact Hws].
  - unfold strip, rstrip. rewrite lstrip_app by (rewrite Hl; discriminate).
    rewrite rev_app_distr. now rewrite (lstrip_blank_app _ _ (blank_rev ws Hws)).
Qed.

Lemma strip_blank_app (ws s : str) : blank ws -> strip (ws ++ s) = strip s.
Proof. intros H. unfold strip. now rewrite lstrip_blank_app. Qed.

(** The characters of a trimmed string are characters of the string. *)
Lemma strip_incl (s : str) (c : ascii) : In c (strip s) -> In c s.
Proof.
  intros H. destruct (strip_split s) as (b & a & _ & _ & E). rewrite E.
  apply in_or_app. right. apply in_or_app. now left.
Qed.

End StripFacts.

(** ** pdf_extractor: what the paragraphs are *)

Module ParagraphProps.

Import Segmenter StrFacts StripFacts SegmenterFacts pdf_extractor.

Lemma in_trimmed_nonempty (chunks : list str) (p : str) :
  In p (trimmed_nonempty chunks) <->
  p <> [] /\ exists chunk, In chunk chunks /\ p = strip chunk.
Proof.
  unfold trimmed_nonempty. rewrite filter_In, in_map_iff, Bool.negb_true_iff, eqb_false_iff.
  split.
  - intros [(chunk & E & Hin) Hne]. split; [exact Hne | now exists chunk].
  - intros [Hne (chunk & Hin & E)]. split; [now exists chunk | exact Hne].
Qed.

(** The paragraphs are one of the two candidate lists. *)
Lemma paragraphs_cases (full_text : str) :
  paragraphs full_text = trimmed_nonempty (split [LF; LF] full_text) \/
  paragraphs full_text = trimmed_nonempty (split [LF] full_text).
Proof.
  unfold paragraphs. rewrite strategy1_trimmed, raw_lines_trimmed.
  destruct (len (trimmed_nonempty (split [LF; LF] full_text)) <=? 1)%Z; auto.
Qed.

Lemma in_paragraphs_trimmed (full_text p : str) :
  In p (paragraphs full_text) -> p <> [] /\ strip p = p.
Proof.
  intros Hin.
  assert (H : exists chunks, In p (trimmed_nonempty chunks)).
  { destruct (paragraphs_cases full_text) as [E|E]; rewrite E in Hin; eauto. }
  destruct H as (chunks & H). apply in_trimmed_nonempty in H as [Hne (chunk & _ & ->)].
  split; [exact Hne | apply strip_idempotent].
Qed.

(** X1.  Whatever the page text, every paragraph found is non-empty and
    has no whitespace at either end: trimming it again changes nothing. *)
Theorem paragraphs_are_trimmed (full_text : str) :
  Forall (fun p => p <> [] /\ strip p = p) (paragraphs full_text).
Proof.
  apply Forall_forall. intros p Hin. exact (in_paragraphs_trimmed full_text p Hin).
Qed.

(** The characters of the chunks of a split are characters of the text. *)
Lemma split_from_incl (sep : str) (s : str) :
  forall skip, Forall (fun chunk => incl chunk s) (split_from sep skip s).
Proof.
  induction s as [|c s IH]; intros skip.
  - cbn. constructor; [apply incl_refl | constructor].
  - assert (Hweak : forall l, Forall (fun chunk => incl chunk s) l ->
                              Forall (fun chunk => incl chunk (c :: s)) l).
    { intros l. apply Forall_impl. intros chunk H. now apply incl_tl. }
    cbn [split_from]. destruct skip as [|skip]; [|apply Hweak, IH].
    destruct (startswith sep (c :: s)).
    + constructor; [intros x [] | apply Hweak, IH].
    + specialize (IH 0%nat). destruct (split_from sep 0 s) as [|h t].
      * cbn. constructor; [|constructor]. intros x [<-|[]]. now left.
      * cbn [cons_head]. inversion IH as [|? ? Hh Ht]; subst.
        constructor; [|now apply Hweak].
        intros x [<-|Hx]; [now left | right; now apply Hh].
Qed.

Lemma trimmed_nonempty_blank (chunks : list str) :
  Forall blank chunks -> trimmed_nonempty chunks = [].
Proof.
  induction 1 as [|chunk chunks Hb _ IH]; [reflexivity|].
  rewrite trimmed_nonempty_cons, (strip_blank chunk Hb). exact IH.
Qed.

Lemma split_blank (sep s : str) : blank s -> Forall blank (split sep s).
Proof.
  intros Hs. unfold split. eapply Forall_impl; [|apply split_from_incl].
  unfold blank in *. intros chunk Hincl. rewrite forallb_forall in *.
  intros c Hc. apply Hs, Hincl, Hc.
Qed.

(** X2.  A page whose text is empty or whitespace only has no paragraph. *)
Theorem blank_page_has_no_paragraph (full_text : str) :
  forallb isspace full_text = true -> paragraphs full_text = [].
Proof.
  intros Hb.
  destruct (paragraphs_cases full_text) as [E|E]; rewrite E;
    apply trimmed_nonempty_blank, split_blank, Hb.
Qed.

Lemma blank_page_has_no_paragraph_witness :
  paragraphs ("  " ++ [LF; LF; LF] ++ " " ++ [LF]) = [] /\ paragraphs "" = [].
Proof.
  split; apply blank_page_has_no_paragraph; reflexivity.
Defined.

Lemma text_lines_no_newline (s : str) :
  Forall (fun line => ~ In LF line) (text_lines s).
Proof.
  induction s as [|c s IH]; [constructor; [intros [] | constructor]|].
  cbn [text_lines]. destruct (Ascii.eqb_spec c LF) as [->|Hc].
  - constructor; [intros [] | exact IH].
  - destruct (text_lines s) as [|h t]; cbn [cons_head].
    + constructor; [|constructor]. intros [E|[]]. now apply Hc.
    + inversion IH as [|? ? Hh Ht]; subst. constructor; [|exact Ht].
      intros [E|Hin]; [now apply Hc | now apply Hh].
Qed.

(** X3.  When the split on blank lines gives at most one paragraph, so that
    the lines are the paragraphs, no paragraph contains a newline. *)
Theorem fallback_paragraphs_are_single_lines (full_text : str) :
  (List.length (strategy1 full_text) <= 1)%nat ->
  Forall (fun p => ~ In LF p) (paragraphs full_text).
Proof.
  intros H. unfold paragraphs.
  destruct (Z.leb_spec (len (strategy1 full_text)) 1) as [_|Hgt];
    [|rewrite len_length in Hgt; lia].
  rewrite raw_lines_trimmed, split_LF_lines. apply Forall_forall. intros p Hin.
  apply in_trimmed_nonempty in Hin as [_ (line & Hline & ->)].
  pose proof (text_lines_no_newline full_text) as Hno.
  rewrite Forall_forall in Hno. intros Hc. apply (Hno line Hline).
  now apply strip_incl.
Qed.

Lemma fallback_paragraphs_are_single_lines_witness :
  Forall (fun p => ~ In LF p)
         (paragraphs ("Title" ++ [LF] ++ "first line" ++ [LF] ++ "second line")).
Proof.
  apply fallback_paragraphs_are_single_lines. vm_compute. lia.
Defined.

Section Selection.

Variable float : Type.
Variable fsub : float -> float -> float.
Variable path_exists : str -> bool.
Variable PdfReader : str -> result (list str).
Variables start_time end_time : float.

(** X4.  With an existing file, a page number within the document and an
    index within the paragraphs of that page, [extract_paragraph] returns
    the paragraph at that index, with the page and index it was asked for
    and the length of the text; the text is never empty and never starts or
    ends with whitespace. *)
Theorem index_in_range_returns_paragraph
    (pdf_path : str) (page_number paragraph_index : Z) (pages : list str) :
  path_exists pdf_path = true ->
  PdfReader pdf_path = Ok pages ->
  (1 <= page_number <= len pages)%Z ->
  (0 <= paragraph_index
   < len (paragraphs (nth (Z.to_nat (page_number - 1)) pages [])))%Z ->
  exists r,
    extract_paragraph fsub path_exists PdfReader start_time end_time
      pdf_path page_number paragraph_index = Ok r /\
    text r = nth (Z.to_nat paragraph_index)
                 (paragraphs (nth (Z.to_nat (page_number - 1)) pages [])) [] /\
    page r = page_number /\
    pdf_extractor.paragraph_index r = paragraph_index /\
    pdf_extractor.length r = len (text r) /\
    (1 <= pdf_extractor.length r)%Z /\
    strip (text r) = text r.
Proof.
  intros Hex Hread Hpage Hidx.
  set (ps := paragraphs (nth (Z.to_nat (page_number - 1)) pages [])) in *.
  assert (Hin : In (nth (Z.to_nat paragraph_index) ps []) ps).
  { apply nth_In. unfold len in Hidx. lia. }
  destruct (in_paragraphs_trimmed _ _ Hin) as [Hne Hstrip].
  eexists. split.
  - unfold extract_paragraph, extract_paragraph_try. rewrite Hex, Hread.
    cbn [negb bind].
    destruct (Z.ltb_spec (page_number - 1) 0) as [?|_]; [lia|].
    destruct (Z.geb_spec (page_number - 1) (len pages)) as [?|_]; [lia|].
    cbn [orb]. fold ps.
    destruct (Z.ltb_spec paragraph_index 0) as [?|_]; [lia|].
    destruct (Z.geb_spec paragraph_index (len ps)) as [?|_]; [lia|].
    cbn [orb]. reflexivity.
  - cbn [text page pdf_extractor.paragraph_index pdf_extractor.length].
    repeat split; try exact Hstrip.
    unfold len. destruct (nth (Z.to_nat paragraph_index) ps []); [contradiction|].
    cbn [List.length]. lia.
Qed.

End Selection.

Lemma index_in_range_returns_paragraph_witness :
  exists r,
    extract_paragraph Qminus (fun _ => true)
      (fun _ => Ok ["Para one." ++ [LF; LF] ++ " Para two. "]) 0%Q 1%Q "doc.pdf" 1 1 = Ok r /\
    text r = "Para two." /\ pdf_extractor.length r = 9%Z.
Proof.
  destruct (index_in_range_returns_paragraph Q Qminus (fun _ => true)
              (fun _ => Ok ["Para one." ++ [LF; LF] ++ " Para two. "]) 0%Q 1%Q
              "doc.pdf" 1 1 ["Para one." ++ [LF; LF] ++ " Para two. "])
    as (r & Hr & Ht & _ & _ & Hl & _).
  - reflexivity.
  - reflexivity.
  - vm_compute. split; discriminate.
  - vm_compute. split; [discriminate | reflexivity].
  - exists r. split; [exact Hr|]. split; [exact Ht | now rewrite Hl, Ht].
Defined.

End ParagraphProps.

(** ** transcript_service: cleaning inside the pipeline *)

Module PipelineProps.

Import openai pdf_extractor transcript_service.

Section Cleaning.

Variable model_name : str.
Variable create : request -> result ChatCompletion.

(** X5.  A completion that has no choice, or whose first choice has no
    content, is handled like a failed call: [clean_transcript] returns the
    raw text. *)
Theorem completion_without_content_returns_raw_text
    (raw_text : str) (response : ChatCompletion) :
  create (cleaning_request model_name raw_text) = Ok response ->
  choices response = [] \/ (exists rest, choices response = None :: rest) ->
  clean_transcript model_name create raw_text = raw_text.
Proof.
  intros H Hc. unfold clean_transcript, clean_transcript_try, first_content.
  rewrite H. cbn [bind].
  destruct Hc as [-> | [rest ->]]; reflexivity.
Qed.

(** X6.  A completion whose first choice has a content gives that content
    as the cleaned text, even when it is empty and whatever the other
    choices are: the answer of the model is taken as it is. *)
Theorem completion_content_is_returned
    (raw_text cleaned_text : str) (response : ChatCompletion) (rest : list (option str)) :
  create (cleaning_request model_name raw_text) = Ok response ->
  choices response = Some cleaned_text :: rest ->
  clean_transcript model_name create raw_text = cleaned_text.
Proof.
  intros H Hc. unfold clean_transcript, clean_transcript_try, first_content.
  rewrite H. cbn [bind]. now rewrite Hc.
Qed.

Variable float : Type.
Variable fsub : float -> float -> float.
Variable path_exists : str -> bool.
Variable PdfReader : str -> result (list str).
Variables start_time end_time : float.

(** X7.  [process_pdf_paragraph] fails exactly when the extraction fails,
    and then with the exception of the extraction.  When the extraction
    succeeds, the result keeps the extracted text as [original] and the
    extraction result as [metadata], whatever the client does; and when the
    remote call raises, [cleaned] is [original]. *)
Theorem process_follows_extraction (pdf_path : str) (page paragraph_index : Z) :
  (forall e,
      extract_paragraph fsub path_exists PdfReader start_time end_time
        pdf_path page paragraph_index = Raise e ->
      process_pdf_paragraph model_name create fsub path_exists PdfReader
        start_time end_time pdf_path page paragraph_index = Raise e) /\
  (forall r,
      extract_paragraph fsub path_exists PdfReader start_time end_time
        pdf_path page paragraph_index = Ok r ->
      exists p,
        process_pdf_paragraph model_name create fsub path_exists PdfReader
          start_time end_time pdf_path page paragraph_index = Ok p /\
        original p = text r /\
        metadata p = r /\
        (forall e, create (cleaning_request model_name (text r)) = Raise e ->
                   cleaned p = original p)).
Proof.
  unfold process_pdf_paragraph. split.
  - intros e ->. reflexivity.
  - intros r ->. cbn [bind]. eexists. split; [reflexivity|].
    cbn [original metadata cleaned]. repeat split.
    intros e He. unfold clean_transcript, clean_transcript_try. now rewrite He.
Qed.

End Cleaning.

Lemma completion_without_content_returns_raw_text_witness :
  clean_transcript "llama3.1:8b" (fun _ => Ok {| choices := [] |}) "raw  text" = "raw  text" /\
  clean_transcript "llama3.1:8b" (fun _ => Ok {| choices := [None; Some "x"] |}) "raw  text"
  = "raw  text".
Proof.
  split.
  - apply (completion_without_content_returns_raw_text "llama3.1:8b"
             (fun _ => Ok {| choices := [] |}) "raw  text" {| choices := [] |}).
    + reflexivity.
    + left. reflexivity.
  - apply (completion_without_content_returns_raw_text "llama3.1:8b"
             (fun _ => Ok {| choices := [None; Some "x"] |}) "raw  text"
             {| choices := [None; Some "x"] |}).
    + reflexivity.
    + right. exists [Some "x"]. reflexivity.
Defined.

Lemma completion_content_is_returned_witness :
  clean_transcript "llama3.1:8b" (fun _ => Ok {| choices := [Some ""; Some "other"] |})
    "raw  text" = "".
Proof.
  apply (completion_content_is_returned "llama3.1:8b"
           (fun _ => Ok {| choices := [Some ""; Some "other"] |}) "raw  text" ""
           {| choices := [Some ""; Some "other"] |} [Some "other"]); reflexivity.
Defined.

Lemma process_follows_extraction_witness :
  process_pdf_paragraph "llama3.1:8b" (fun _ => Raise (OtherError "Connection error."))
    Qminus (fun _ => false) (fun _ => Ok []) 0%Q 1%Q "missing.pdf" 1 0
  = Raise (FileNotFoundError "PDF not found at missing.pdf") /\
  exists p,
    process_pdf_paragraph "llama3.1:8b" (fun _ => Raise (OtherError "Connection error."))
      Qminus (fun _ => true) (fun _ => Ok ["One." ++ [LF; LF] ++ "Two."]) 0%Q 1%Q "doc.pdf" 1 1
    = Ok p /\ original p = "Two." /\ cleaned p = "Two.".
Proof.
  split.
  - apply (proj1 (process_follows_extraction "llama3.1:8b"
                    (fun _ => Raise (OtherError "Connection error."))
                    Q Qminus (fun _ => false) (fun _ => Ok []) 0%Q 1%Q "missing.pdf" 1 0)).
    reflexivity.
  - destruct (proj2 (process_follows_extraction "llama3.1:8b"
                       (fun _ => Raise (OtherError "Connection error."))
                       Q Qminus (fun _ => true) (fun _ => Ok ["One." ++ [LF; LF] ++ "Two."])
                       0%Q 1%Q "doc.pdf" 1 1)
                    {| text := "Two."; page := 1; pdf_extractor.paragraph_index := 1;
                       pdf_extractor.length := 4; extraction_time := Qminus 1 0 |}
                    eq_refl)
      as (p & Hp & Ho & _ & Hc).
    exists p. split; [exact Hp|]. split; [exact Ho|].
    rewrite (Hc (OtherError "Connection error.") eq_refl). exact Ho.
Defined.

End PipelineProps.

(** ** mindmap_service: the cleanup of the response *)

Module FenceProps.

Import openai mindmap_service StrFacts StripFacts.

Definition BACKQUOTE : ascii := ascii_of_nat 96.

(** A string without backquote. *)
Definition plain (s : str) : Prop := ~ In BACKQUOTE s.

Lemma plain_cons (c : ascii) (s : str) :
  plain (c :: s) -> Ascii.eqb BACKQUOTE c = false /\ plain s.
Proof.
  unfold plain. intros H. split.
  - apply Ascii.eqb_neq. intros E. apply H. now left.
  - intros Hin. apply H. now right.
Qed.

Lemma plain_app (a b : str) : plain a -> plain b -> plain (a ++ b).
Proof. unfold plain. intros Ha Hb H. apply in_app_or in H. tauto. Qed.

Lemma blank_plain (ws : str) : blank ws -> plain ws.
Proof.
  unfold blank, plain. rewrite forallb_forall. intros H Hin.
  specialize (H _ Hin). discriminate H.
Qed.

Lemma startswith_fence_json_plain (c : ascii) (s : str) :
  Ascii.eqb BACKQUOTE c = false -> startswith FENCE_JSON (c :: s) = false.
Proof. intros H. change FENCE_JSON with (BACKQUOTE :: "``json"). cbn [startswith]. now rewrite H. Qed.

Lemma startswith_fence_plain (c : ascii) (s : str) :
  Ascii.eqb BACKQUOTE c = false -> startswith FENCE (c :: s) = false.
Proof. intros H. change FENCE with (BACKQUOTE :: "``"). cbn [startswith]. now rewrite H. Qed.

(** Text without backquote is copied by the first substitution. *)
Lemma sub_fence_json_plain (s rest : str) :
  plain s -> sub_fence_json Copy (s ++ rest) = s ++ sub_fence_json Copy rest.
Proof.
  induction s as [|c s IH]; intros H; [reflexivity|].
  apply plain_cons in H as [Hc Hs]. cbn [app sub_fence_json].
  rewrite (startswith_fence_json_plain c (s ++ rest) Hc). now rewrite IH.
Qed.

(** Whitespace after the tagged fence is dropped. *)
Lemma sub_fence_json_space (ws rest : str) :
  blank ws -> sub_fence_json InSpace (ws ++ rest) = sub_fence_json InSpace rest.
Proof.
  unfold blank. induction ws as [|c ws IH]; intros H; [reflexivity|].
  cbn [forallb] in H. apply Bool.andb_true_iff in H as [Hc Hws].
  cbn [app sub_fence_json]. rewrite Hc. exact (IH Hws).
Qed.

(** Where the whitespace stops, copying goes on. *)
Lemma sub_fence_json_resume (c : ascii) (s : str) :
  isspace c = false ->
  sub_fence_json InSpace (c :: s) = sub_fence_json Copy (c :: s).
Proof. intros H. cbn [sub_fence_json]. now rewrite H. Qed.

Lemma sub_fence_json_tagged (rest : str) :
  sub_fence_json Copy (FENCE_JSON ++ rest) = sub_fence_json InSpace rest.
Proof. reflexivity. Qed.

Lemma sub_fence_json_copy (c : ascii) (s : str) :
  startswith FENCE_JSON (c :: s) = false ->
  sub_fence_json Copy (c :: s) = c :: sub_fence_json Copy s.
Proof. intros H. cbn [sub_fence_json]. now rewrite H. Qed.

(** A closing fence with whitespace behind it is no tagged fence. *)
Lemma sub_fence_json_closing (ws : str) :
  blank ws -> sub_fence_json Copy (FENCE ++ ws) = FENCE ++ ws.
Proof.
  intros H. pose proof (blank_plain ws H) as Hp.
  assert (E : sub_fence_json Copy ws = ws).
  { rewrite <- (app_nil_r ws) at 1. rewrite (sub_fence_json_plain ws [] Hp).
    cbn [sub_fence_json]. apply app_nil_r. }
  destruct ws as [|w ws]; [reflexivity|].
  unfold blank in H. cbn [forallb] in H. apply Bool.andb_true_iff in H as [Hw _].
  assert (Hj : Ascii.eqb "j" w = false).
  { apply Ascii.eqb_neq. intros <-. discriminate Hw. }
  assert (Hb : Ascii.eqb BACKQUOTE w = false).
  { apply Ascii.eqb_neq. intros <-. discriminate Hw. }
  change (FENCE ++ w :: ws) with (BACKQUOTE :: BACKQUOTE :: BACKQUOTE :: w :: ws).
  assert (S3 : startswith FENCE_JSON (BACKQUOTE :: BACKQUOTE :: BACKQUOTE :: w :: ws) = false).
  { change FENCE_JSON with (BACKQUOTE :: BACKQUOTE :: BACKQUOTE :: "json").
    cbn [startswith]. now rewrite !Ascii.eqb_refl, Hj. }
  assert (S2 : startswith FENCE_JSON (BACKQUOTE :: BACKQUOTE :: w :: ws) = false).
  { change FENCE_JSON with (BACKQUOTE :: BACKQUOTE :: BACKQUOTE :: "json").
    cbn [startswith]. now rewrite !Ascii.eqb_refl, Hb. }
  assert (S1 : startswith FENCE_JSON (BACKQUOTE :: w :: ws) = false).
  { change FENCE_JSON with (BACKQUOTE :: BACKQUOTE :: BACKQUOTE :: "json").
    cbn [startswith]. now rewrite !Ascii.eqb_refl, Hb. }
  now rewrite (sub_fence_json_copy _ _ S3), (sub_fence_json_copy _ _ S2),
    (sub_fence_json_copy _ _ S1), E.
Qed.

(** The second substitution cuts at a fence that only whitespace follows,
    when there is no backquote before it. *)
Lemma sub_fence_end_cut (s ws : str) :
  plain s -> blank ws -> sub_fence_end (s ++ FENCE ++ ws) = s.
Proof.
  intros Hs Hws. induction s as [|c s IH].
  - change ([] ++ FENCE ++ ws) with (BACKQUOTE :: BACKQUOTE :: BACKQUOTE :: ws).
    assert (E1 : startswith FENCE (BACKQUOTE :: BACKQUOTE :: BACKQUOTE :: ws) = true)
      by reflexivity.
    assert (E2 : skipn (List.length FENCE) (BACKQUOTE :: BACKQUOTE :: BACKQUOTE :: ws) = ws)
      by reflexivity.
    cbn [sub_fence_end]. rewrite E1, E2. unfold blank in Hws. now rewrite Hws.
  - apply plain_cons in Hs as [Hc Hs]. cbn [app sub_fence_end].
    rewrite (startswith_fence_plain c _ Hc). cbn [andb]. now rewrite (IH Hs).
Qed.

Lemma sub_fence_end_plain (s : str) : plain s -> sub_fence_end s = s.
Proof.
  induction s as [|c s IH]; intros H; [reflexivity|].
  apply plain_cons in H as [Hc Hs]. cbn [sub_fence_end].
  rewrite (startswith_fence_plain c s Hc). cbn [andb]. now rewrite (IH Hs).
Qed.

(** X8.  A response without any backquote is only trimmed: the two
    substitutions leave it as it is. *)
Theorem response_without_fence_is_trimmed (content : str) :
  ~ In BACKQUOTE content -> clean_json_response content = strip content.
Proof.
  intros H. unfold clean_json_response.
  rewrite <- (app_nil_r content) at 1.
  rewrite (sub_fence_json_plain content [] H). cbn [sub_fence_json].
  rewrite app_nil_r. now rewrite (sub_fence_end_plain content H).
Qed.

Lemma response_without_fence_is_trimmed_witness :
  clean_json_response (" {}" ++ [LF]) = "{}".
Proof.
  rewrite (response_without_fence_is_trimmed (" {}" ++ [LF])); [reflexivity|].
  intros H. cbn in H. repeat (destruct H as [H|H]; [discriminate H|]). exact H.
Defined.

Lemma tagged_fence_cleanup (ws0 ws1 body ws2 ws3 : str) :
  blank ws0 -> blank ws1 -> blank ws2 -> blank ws3 ->
  plain body -> body <> [] -> strip body = body ->
  clean_json_response (ws0 ++ FENCE_JSON ++ ws1 ++ body ++ ws2 ++ FENCE ++ ws3) = body.
Proof.
  intros H0 H1 H2 H3 Hplain Hne Hstrip. unfold clean_json_response.
  assert (Hclean : starts_clean body) by (rewrite <- Hstrip; apply strip_starts_clean).
  rewrite (sub_fence_json_plain ws0 _ (blank_plain ws0 H0)).
  rewrite sub_fence_json_tagged, (sub_fence_json_space ws1 _ H1).
  destruct body as [|c body]; [contradiction|]. cbn [starts_clean] in Hclean.
  change ((c :: body) ++ ws2 ++ FENCE ++ ws3) with (c :: (body ++ ws2 ++ FENCE ++ ws3)).
  rewrite (sub_fence_json_resume c _ Hclean).
  change (c :: (body ++ ws2 ++ FENCE ++ ws3)) with ((c :: body) ++ ws2 ++ FENCE ++ ws3).
  rewrite (sub_fence_json_plain (c :: body) _ Hplain).
  rewrite (sub_fence_json_plain ws2 _ (blank_plain ws2 H2)).
  rewrite (sub_fence_json_closing ws3 H3).
  replace (ws0 ++ (c :: body) ++ ws2 ++ FENCE ++ ws3)
    with ((ws0 ++ (c :: body) ++ ws2) ++ FENCE ++ ws3) by (now rewrite <- !app_assoc).
  rewrite sub_fence_end_cut; [| |exact H3].
  - rewrite (strip_blank_app ws0 _ H0), (strip_app_blank (c :: body) ws2 H2). exact Hstrip.
  - apply plain_app; [now apply blank_plain|].
    apply plain_app; [exact Hplain | now apply blank_plain].
Qed.

(** X9.  A body wrapped in a fence tagged [json] comes out alone.  The body
    is any non-empty text without backquote and without whitespace at its
    ends; whitespace may stand before the opening fence, between the fences
    and the body, and after the closing fence. *)
Theorem tagged_fence_is_stripped (ws0 ws1 body ws2 ws3 : str) :
  forallb isspace ws0 = true -> forallb isspace ws1 = true ->
  forallb isspace ws2 = true -> forallb isspace ws3 = true ->
  ~ In BACKQUOTE body -> body <> [] -> strip body = body ->
  clean_json_response (ws0 ++ FENCE_JSON ++ ws1 ++ body ++ ws2 ++ FENCE ++ ws3) = body.
Proof. exact (tagged_fence_cleanup ws0 ws1 body ws2 ws3). Qed.

Lemma tagged_fence_is_stripped_witness :
  clean_json_response ([LF] ++ FENCE_JSON ++ [LF] ++ "{}" ++ [LF] ++ FENCE ++ [LF]) = "{}".
Proof.
  apply (tagged_fence_is_stripped [LF] [LF] "{}" [LF] [LF]); try reflexivity.
  - intros H. cbn in H. repeat (destruct H as [H|H]; [discriminate H|]). exact H.
  - discriminate.
Defined.

(** What is handed to the parser never starts or ends with whitespace:
    trimming it again changes nothing. *)
Lemma cleaned_response_is_trimmed (content : str) :
  strip (clean_json_response content) = clean_json_response content.
Proof. unfold clean_json_response. apply strip_idempotent. Qed.

End FenceProps.

(** ** mindmap_service: what [generate_mindmap_json] returns and raises *)

Module GeneratorProps.

Import openai mindmap_service StrFacts StripFacts FenceProps.

(** An exception of another class than [JSONDecodeError]. *)
Definition not_decode_error (e : exn) : Prop :=
  match e with
  | JSONDecodeError _ => False
  | _ => True
  end.

Section Generation.

Variable model_name : str.
Variable create : request -> result ChatCompletion.
Variable json_loads : str -> result json.

(** X11.  An exception of another class than [JSONDecodeError] is raised
    again as it is, whether the call raised it or the parser did: only a
    text that is no JSON is replaced by the fallback tree. *)
Theorem other_exceptions_are_raised_again (transcript_text : str) (e : exn) :
  not_decode_error e ->
  (create (mindmap_request model_name transcript_text) = Raise e ->
   generate_mindmap_json model_name create json_loads transcript_text = Raise e) /\
  (forall response content,
      create (mindmap_request model_name transcript_text) = Ok response ->
      first_content response = Ok (Some content) ->
      json_loads (clean_json_response content) = Raise e ->
      generate_mindmap_json model_name create json_loads transcript_text = Raise e).
Proof.
  intros He. unfold generate_mindmap_json. split.
  - intros ->. destruct e; try reflexivity. destruct He.
  - intros response content -> -> ->. destruct e; try reflexivity. destruct He.
Qed.

(** X12.  Unlike the cleaning step, the hierarchy step does not recover
    from a completion without content: with no choice it raises
    [IndexError], and with a first choice whose content is [None] it raises
    [TypeError]. *)
Theorem completion_without_content_raises
    (transcript_text : str) (response : ChatCompletion) :
  create (mindmap_request model_name transcript_text) = Ok response ->
  (choices response = [] ->
   generate_mindmap_json model_name create json_loads transcript_text
   = Raise (IndexError "list index out of range")) /\
  (forall rest, choices response = None :: rest ->
   generate_mindmap_json model_name create json_loads transcript_text
   = Raise (TypeError "'NoneType' object is not subscriptable")).
Proof.
  intros H. unfold generate_mindmap_json, first_content. rewrite H. split.
  - intros ->. reflexivity.
  - intros rest ->. reflexivity.
Qed.


End Generation.

Lemma other_exceptions_are_raised_again_witness :
  generate_mindmap_json "gemma3:4b" (fun _ => Raise (OtherError "Connection error."))
    (fun _ => Ok JNull) "text" = Raise (OtherError "Connection error.") /\
  generate_mindmap_json "gemma3:4b" (fun _ => Ok {| choices := [Some "[[[["] |})
    (fun _ => Raise (OtherError "maximum recursion depth exceeded")) "text"
  = Raise (OtherError "maximum recursion depth exceeded").
Proof.
  split.
  - apply (proj1 (other_exceptions_are_raised_again "gemma3:4b"
                    (fun _ => Raise (OtherError "Connection error."))
                    (fun _ => Ok JNull) "text" (OtherError "Connection error.") I)).
    reflexivity.
  - apply (proj2 (other_exceptions_are_raised_again "gemma3:4b"
                    (fun _ => Ok {| choices := [Some "[[[["] |})
                    (fun _ => Raise (OtherError "maximum recursion depth exceeded"))
                    "text" (OtherError "maximum recursion depth exceeded") I)
                 {| choices := [Some "[[[["] |} "[[[["); reflexivity.
Defined.

Lemma completion_without_content_raises_witness :
  generate_mindmap_json "gemma3:4b" (fun _ => Ok {| choices := [] |})
    (fun _ => Ok JNull) "text" = Raise (IndexError "list index out of range") /\
  generate_mindmap_json "gemma3:4b" (fun _ => Ok {| choices := [None] |})
    (fun _ => Ok JNull) "text" = Raise (TypeError "'NoneType' object is not subscriptable").
Proof.
  split.
  - apply (proj1 (completion_without_content_raises "gemma3:4b"
                    (fun _ => Ok {| choices := [] |}) (fun _ => Ok JNull) "text"
                    {| choices := [] |} eq_refl)).
    reflexivity.
  - apply (proj2 (completion_without_content_raises "gemma3:4b"
                    (fun _ => Ok {| choices := [None] |}) (fun _ => Ok JNull) "text"
                    {| choices := [None] |} eq_refl) []).
    reflexivity.
Defined.


End GeneratorProps.

(** ** mindmap_service: rendering any value *)

Module DiagramProps.

Import mindmap_service Renderer Segmenter StrFacts SegmenterFacts RendererFacts.

(** The recursion of [json_to_mermaid] as the source writes it: the label,
    the declaration, then the children in turn, each by [json_to_mermaid]
    itself. *)
Lemma json_to_mermaid_unfold (d : list (str * json)) (parent_id : option str) (k : Z) :
  json_to_mermaid (JDict d) parent_id k
  = (label <- sanitized_label d ;;
     children <- iterate (dict_get d "children" (JList [])) ;;
     for_children json_to_mermaid (node_name k) children
       [declaration parent_id (node_name k) label] (k + 1)%Z).
Proof.
  unfold json_to_mermaid at 1. rewrite json_depth_dict. cbn [json_to_mermaid_rec].
  fold (node_name k).
  destruct (sanitized_label d) as [label|e]; [|reflexivity]. cbn [bind].
  destruct (iterate (dict_get d "children" (JList []))) as [children|e] eqn:Hit;
    [|reflexivity].
  cbn [bind]. apply for_children_ext. intros child Hin p' k'.
  apply json_to_mermaid_depth_enough.
  pose proof (children_depth d children child Hit Hin) as H.
  rewrite json_depth_dict in H. lia.
Qed.

Lemma json_to_mermaid_non_object (node : json) (parent_id : option str) (k : Z) :
  (forall d, node <> JDict d) ->
  json_to_mermaid node parent_id k = Raise (AttributeError "object has no attribute 'get'").
Proof.
  intros H. unfold json_to_mermaid.
  destruct node; try reflexivity. now elim (H d).
Qed.

Lemma for_children_count
    (call : json -> option str -> Z -> result (list str * Z))
    (current_id : str) (children : list json) :
  (forall child k lines k',
      call child (Some current_id) k = Ok (lines, k') -> k' = (k + len lines)%Z) ->
  forall lines k lines' k',
    for_children call current_id children lines k = Ok (lines', k') ->
    (k' - len lines' = k - len lines)%Z /\ exists more, lines' = lines ++ more.
Proof.
  intros Hcall. induction children as [|c cs IH]; intros lines k lines' k' Hrun.
  - cbn [for_children] in Hrun. injection Hrun as <- <-.
    split; [reflexivity | exists []; now rewrite app_nil_r].
  - cbn [for_children] in Hrun.
    destruct (call c (Some current_id) k) as [[child_lines next_id]|e] eqn:Hc;
      [|discriminate Hrun].
    cbn [bind] in Hrun. destruct (IH _ _ _ _ Hrun) as [Hk (more & ->)].
    pose proof (Hcall _ _ _ _ Hc) as ->. split.
    + rewrite Hk. unfold len. rewrite length_app. lia.
    + exists (child_lines ++ more). now rewrite app_assoc.
Qed.

Lemma rec_count (depth : nat) :
  forall node parent_id k lines k',
    json_to_mermaid_rec depth node parent_id k = Ok (lines, k') ->
    k' = (k + len lines)%Z /\
    exists label rest, lines = declaration parent_id (node_name k) label :: rest.
Proof.
  induction depth as [|depth IH]; intros node parent_id k lines k' Hrun;
    [discriminate Hrun|].
  destruct node; try discriminate Hrun.
  cbn [json_to_mermaid_rec] in Hrun. fold (node_name k) in Hrun.
  destruct (sanitized_label d) as [label|e]; [|discriminate Hrun].
  cbn [bind] in Hrun.
  destruct (iterate (dict_get d "children" (JList []))) as [children|e];
    [|discriminate Hrun].
  cbn [bind] in Hrun.
  apply for_children_count in Hrun as [Hk (more & ->)].
  - split.
    + unfold len in *. cbn [List.length app] in *. lia.
    + now exists label, more.
  - intros child k1 lines1 k1' H. exact (proj1 (IH _ _ _ _ _ H)).
Qed.

(** X14.  Whatever JSON value is rendered, with whatever starting number:
    when [json_to_mermaid] returns, the first line is the declaration of the
    value itself under the starting number, the number it returns is the
    starting number plus the number of lines, and, the parent identifier
    having no double quote, every line has exactly two double quotes. *)
Theorem rendering_counts_its_lines
    (node : json) (parent_id : option str) (k : Z) (lines : list str) (next : Z) :
  json_to_mermaid node parent_id k = Ok (lines, next) ->
  next = (k + len lines)%Z /\
  (exists label rest, lines = declaration parent_id (node_name k) label :: rest) /\
  ((forall s, parent_id = Some s -> quotes s = 0%nat) ->
   Forall (fun line => quotes line = 2%nat) lines).
Proof.
  intros Hrun. unfold json_to_mermaid in Hrun.
  destruct (rec_count _ _ _ _ _ _ Hrun) as [Hk Hfirst].
  split; [exact Hk | split; [exact Hfirst|]].
  intros Hp. exact (rec_well_quoted _ _ _ _ _ _ Hp Hrun).
Qed.

Lemma rendering_counts_its_lines_witness :
  (7 = 5 + len [ node_line "node5" "Error Parsing JSON";
                 edge_line "node5" "node6" "Raw Text" ])%Z.
Proof.
  apply (proj1 (rendering_counts_its_lines error_node None 5
                  [ node_line "node5" "Error Parsing JSON";
                    edge_line "node5" "node6" "Raw Text" ] 7 eq_refl)).
Defined.



(** The key is bound in the object. *)
Definition has_key (d : list (str * json)) (key : str) : bool :=
  existsb (fun kv => PyStr.eqb (fst kv) key) d.

Lemma dict_get_missing (d : list (str * json)) (key : str) (default : json) :
  has_key d key = false -> dict_get d key default = default.
Proof.
  unfold has_key. induction d as [|[k v] d IH]; [reflexivity|].
  cbn [existsb fst dict_get]. intros H. apply Bool.orb_false_iff in H as [-> Hd]. auto.
Qed.

(** X16.  An object with none of the keys [name], [root] and [children]
    (the empty object, say) is rendered as one node labelled [Topic],
    without children. *)
Theorem keyless_object_is_a_topic_leaf
    (d : list (str * json)) (parent_id : option str) (k : Z) :
  has_key d "name" = false -> has_key d "root" = false -> has_key d "children" = false ->
  json_to_mermaid (JDict d) parent_id k
  = Ok ([declaration parent_id (node_name k) "Topic"], (k + 1)%Z).
Proof.
  intros Hn Hr Hc. rewrite json_to_mermaid_unfold. unfold sanitized_label.
  now rewrite (dict_get_missing d "name" _ Hn), (dict_get_missing d "root" _ Hr),
    (dict_get_missing d "children" _ Hc).
Qed.

Lemma keyless_object_is_a_topic_leaf_witness :
  json_to_mermaid (JDict [("title", JStr "T")]) None 0
  = Ok ([node_line "node0" "Topic"], 1%Z).
Proof.
  apply (keyless_object_is_a_topic_leaf [("title", JStr "T")] None 0); reflexivity.
Defined.





End DiagramProps.

(** ** mindmap_service: the diagram and the document *)

Module DocumentProps.

Import mindmap_service Renderer Segmenter StrFacts SegmenterFacts RendererFacts.

(** What stands before and after the diagram in the document. *)
Definition html_prefix : str :=
  [LF] ++ "    <!DOCTYPE html>" ++ [LF] ++ "    <html>" ++ [LF] ++ "    <body>" ++ [LF]
  ++ "        <h2>Mind Map Visualization</h2>" ++ [LF]
  ++ "        <pre class=" ++ [DQUOTE] ++ "mermaid" ++ [DQUOTE] ++ ">" ++ [LF].

Definition html_suffix : str :=
  [LF] ++ "        </pre>" ++ [LF]
  ++ "        <script type=" ++ [DQUOTE] ++ "module" ++ [DQUOTE] ++ ">" ++ [LF]
  ++ "            import mermaid from 'https://cdn.jsdelivr.net/npm/mermaid@10/dist/mermaid.esm.min.mjs';"
  ++ [LF] ++ "            mermaid.initialize({ startOnLoad: true });" ++ [LF]
  ++ "        </script>" ++ [LF] ++ "    </body>" ++ [LF] ++ "    </html>" ++ [LF] ++ "    ".

Lemma html_content_split (graph : str) :
  html_content graph = html_prefix ++ graph ++ html_suffix.
Proof. reflexivity. Qed.

Lemma contains_refl (s : str) : contains s s.
Proof. exists [], []. now rewrite app_nil_r. Qed.

Lemma contains_app (needle before s after : str) :
  contains needle s -> contains needle (before ++ s ++ after).
Proof.
  intros (b & a & ->). exists (before ++ b), (a ++ after). now rewrite <- !app_assoc.
Qed.

Lemma contains_trans (a b c : str) : contains a b -> contains b c -> contains a c.
Proof. intros Hab (x & y & ->). now apply contains_app. Qed.

Lemma contains_join (sep line : str) (lines : list str) :
  In line lines -> contains line (join sep lines).
Proof.
  induction lines as [|x l IH]; [intros []|].
  intros [->|Hin].
  - destruct l as [|y l]; [apply contains_refl|].
    cbn [join]. exists [], (sep ++ join sep (y :: l)). reflexivity.
  - destruct l as [|y l]; [destruct Hin|].
    change (join sep (x :: y :: l)) with (x ++ sep ++ join sep (y :: l)).
    specialize (IH Hin). apply (contains_app line (x ++ sep) _ []) in IH.
    now rewrite app_nil_r, <- app_assoc in IH.
Qed.

Lemma carries_contains (line label : str) :
  carries line label -> contains (sanitize label) line.
Proof.
  intros (ids & _ & ->). exists (ids ++ "[" ++ [DQUOTE]), ([DQUOTE] ++ "]").
  now rewrite <- !app_assoc.
Qed.

Lemma Forall2_carried (lines labels : list str) :
  Forall2 carries lines labels ->
  Forall (fun label => exists line, In line lines /\ carries line label) labels.
Proof.
  induction 1 as [|line label lines labels Hc _ IH]; constructor.
  - exists line. split; [now left | exact Hc].
  - eapply Forall_impl; [|exact IH]. intros l (x & Hin & Hx). exists x. split; [now right | exact Hx].
Qed.

(** X18.  For every topic tree, [save_mindmap_html] returns the name it was
    given and a document in which the diagram block opens with its marker
    and the header [graph TD], and in which the sanitized label of every
    node of the tree occurs. *)
Theorem document_names_every_label (t : topic) (output_file : str) :
  exists html,
    save_mindmap_html (wire_root t) output_file = Ok (output_file, html) /\
    contains ("<pre class=" ++ [DQUOTE] ++ "mermaid" ++ [DQUOTE] ++ ">" ++ [LF] ++ "graph TD") html /\
    Forall (fun label => contains (sanitize label) html) (labels t).
Proof.
  unfold save_mindmap_html, wire_root.
  rewrite (render_topic "root" t None 0 (or_introl eq_refl)). cbn [bind].
  eexists. split; [reflexivity|]. rewrite html_content_split. split.
  - unfold mermaid_graph.
    exists ([LF] ++ "    <!DOCTYPE html>" ++ [LF] ++ "    <html>" ++ [LF] ++ "    <body>" ++ [LF]
            ++ "        <h2>Mind Map Visualization</h2>" ++ [LF] ++ "        "),
           ([LF] ++ join [LF] (map declaration_of (preorder t None 0)) ++ html_suffix).
    unfold html_prefix. now rewrite <- !app_assoc.
  - assert (Hc : Forall2 carries (map declaration_of (preorder t None 0)) (labels t)).
    { apply RendererProps.carries_preorder. intros s Hs. discriminate Hs. }
    apply Forall2_carried in Hc. eapply Forall_impl; [|exact Hc].
    intros label (line & Hin & Hline).
    apply contains_app. unfold mermaid_graph.
    apply (contains_trans _ line); [now apply carries_contains|].
    apply (contains_trans _ (join [LF] (map declaration_of (preorder t None 0))));
      [now apply contains_join|].
    exists ("graph TD" ++ [LF]), []. now rewrite app_nil_r, <- app_assoc.
Qed.

(** *** One line per node *)

Definition one_line (s : str) : Prop := ~ In LF s.

Lemma one_line_app (a b : str) : one_line a -> one_line b -> one_line (a ++ b).
Proof. unfold one_line. intros Ha Hb H. apply in_app_or in H. tauto. Qed.

Lemma one_line_uint (u : Decimal.uint) :
  count_occ ascii_dec
    (String.list_ascii_of_string (DecimalString.NilEmpty.string_of_uint u)) LF = 0%nat.
Proof. induction u; cbn; auto. Qed.

Lemma one_line_str_of_Z (z : Z) : one_line (str_of_Z z).
Proof.
  unfold one_line. rewrite (count_occ_not_In ascii_dec).
  unfold str_of_Z. destruct (Z.to_int z) as [u|u]; cbn; apply one_line_uint.
Qed.

Lemma one_line_literal (s : str) : forallb (fun c => negb (Ascii.eqb c LF)) s = true -> one_line s.
Proof.
  unfold one_line. rewrite forallb_forall. intros H Hin.
  specialize (H _ Hin). now rewrite Ascii.eqb_refl in H.
Qed.

Lemma one_line_node_name (k : Z) : one_line (node_name k).
Proof.
  unfold node_name. apply one_line_app; [now apply one_line_literal | apply one_line_str_of_Z].
Qed.

Lemma one_line_sanitize (label : str) : one_line label -> one_line (sanitize label).
Proof.
  unfold one_line, sanitize. intros H Hin. apply in_map_iff in Hin as (c & Hc & Hin).
  destruct (Ascii.eqb c DQUOTE); [discriminate Hc | subst c; now apply H].
Qed.

Lemma one_line_declaration (parent_id : option str) (k : Z) (label : str) :
  (forall s, parent_id = Some s -> one_line s) -> one_line label ->
  one_line (declaration parent_id (node_name k) (sanitize label)).
Proof.
  intros Hp Hl. pose proof (one_line_sanitize label Hl) as Hs.
  pose proof (one_line_node_name k) as Hk.
  assert (Hroot : one_line (node_line (node_name k) (sanitize label))).
  { unfold node_line.
    repeat (apply one_line_app;
            [solve [assumption | apply one_line_literal; reflexivity]|]).
    now apply one_line_literal. }
  unfold declaration. destruct parent_id as [[|c s]|]; try exact Hroot.
  unfold edge_line. pose proof (Hp (c :: s) eq_refl).
  repeat (apply one_line_app;
          [solve [assumption | apply one_line_literal; reflexivity]|]).
  now apply one_line_literal.
Qed.

Lemma one_line_preorder_forest (ts : list topic) :
  Forall (fun t => Forall one_line (labels t) ->
            forall p k, (forall s, p = Some s -> one_line s) ->
              Forall one_line (map declaration_of (preorder t p k))) ts ->
  Forall one_line (flat_map labels ts) ->
  forall p k, (forall s, p = Some s -> one_line s) ->
    Forall one_line (map declaration_of (preorder_forest ts p k)).
Proof.
  induction 1 as [|t ts Ht _ IH]; intros Hl p k Hp; [constructor|].
  cbn [flat_map] in Hl. apply Forall_app in Hl as [Hl1 Hl2].
  cbn [preorder_forest]. rewrite map_app. apply Forall_app. split; auto.
Qed.

Lemma one_line_preorder (t : topic) :
  Forall one_line (labels t) ->
  forall p k, (forall s, p = Some s -> one_line s) ->
    Forall one_line (map declaration_of (preorder t p k)).
Proof.
  induction t as [label ts IH] using topic_induction. intros Hl p k Hp.
  cbn [labels] in Hl. inversion Hl as [|? ? Hlabel Hrest]; subst.
  rewrite preorder_unfold. cbn [map]. constructor.
  - now apply one_line_declaration.
  - apply one_line_preorder_forest; [exact IH | exact Hrest |].
    intros s Hs. injection Hs as <-. apply one_line_node_name.
Qed.

Lemma text_lines_one_line (x : str) : one_line x -> text_lines x = [x].
Proof.
  unfold one_line. induction x as [|c x IH]; intros H; [reflexivity|].
  cbn [text_lines]. destruct (Ascii.eqb_spec c LF) as [->|_]; [elim H; now left|].
  rewrite IH; [reflexivity|]. intros Hin. apply H. now right.
Qed.

Lemma text_lines_app (x rest : str) :
  one_line x -> text_lines (x ++ LF :: rest) = x :: text_lines rest.
Proof.
  unfold one_line. induction x as [|c x IH]; intros H.
  - cbn [app text_lines]. now rewrite Ascii.eqb_refl.
  - cbn [app text_lines]. destruct (Ascii.eqb_spec c LF) as [->|_]; [elim H; now left|].
    rewrite IH; [reflexivity|]. intros Hin. apply H. now right.
Qed.

(** Splitting what [join] put together gives the lines back. *)
Lemma split_join (lines : list str) :
  lines <> [] -> Forall one_line lines -> split [LF] (join [LF] lines) = lines.
Proof.
  rewrite split_LF_lines. induction lines as [|x l IH]; [contradiction|].
  intros _ H. inversion H as [|? ? Hx Hl]; subst.
  destruct l as [|y l]; [now apply text_lines_one_line|].
  change (join [LF] (x :: y :: l)) with (x ++ LF :: join [LF] (y :: l)).
  rewrite (text_lines_app x _ Hx). f_equal. apply IH; [discriminate | exact Hl].
Qed.

(** X19.  When no label of the tree contains a newline, the diagram splits
    back, on newlines, into the header and the declarations: one line per
    node after the header, so as many lines as nodes plus one. *)
Theorem diagram_has_one_line_per_node (t : topic) :
  Forall (fun label => ~ In LF label) (labels t) ->
  exists lines next,
    json_to_mermaid (wire_root t) None 0 = Ok (lines, next) /\
    split [LF] (mermaid_graph lines) = "graph TD" :: lines /\
    List.length (split [LF] (mermaid_graph lines)) = S (size t).
Proof.
  intros Hl.
  assert (Hrun := render_topic "root" t None 0 (or_introl eq_refl)).
  assert (Hlines : Forall one_line (map declaration_of (preorder t None 0))).
  { apply one_line_preorder; [exact Hl|]. intros s Hs. discriminate Hs. }
  assert (Hne : map declaration_of (preorder t None 0) <> []).
  { destruct t as [label ts]. rewrite preorder_unfold. discriminate. }
  assert (E : split [LF] (mermaid_graph (map declaration_of (preorder t None 0)))
              = "graph TD" :: map declaration_of (preorder t None 0)).
  { unfold mermaid_graph.
    rewrite split_LF_lines.
    change ("graph TD" ++ [LF] ++ join [LF] (map declaration_of (preorder t None 0)))
      with ("graph TD" ++ LF :: join [LF] (map declaration_of (preorder t None 0))).
    rewrite text_lines_app by (now apply one_line_literal).
    f_equal. rewrite <- split_LF_lines. now apply split_join. }
  eexists. eexists. split; [exact Hrun|]. split; [exact E|].
  rewrite E. cbn [List.length]. now rewrite length_map, length_preorder.
Qed.

Lemma diagram_has_one_line_per_node_witness :
  exists lines next,
    json_to_mermaid (wire_root (Topic "T" [Topic "A" []; Topic "B" []])) None 0
    = Ok (lines, next) /\
    List.length (split [LF] (mermaid_graph lines)) = 4%nat.
Proof.
  destruct (diagram_has_one_line_per_node (Topic "T" [Topic "A" []; Topic "B" []]))
    as (lines & next & Hrun & _ & Hlen).
  - repeat constructor; intros H; cbn in H;
      repeat (destruct H as [H|H]; [discriminate H|]); exact H.
  - exists lines, next. split; [exact Hrun | exact Hlen].
Defined.

End DocumentProps.

(** ** cli_mindmap: the run of [main] *)

Module MainProps.

Import openai pdf_extractor transcript_service mindmap_service cli_mindmap Naming
       StrFacts CliProps.

(** *** The three names never coincide *)

Lemma derived_filename_changes (ext output : str) :
  differ ext ".html" = true -> ext <> [] -> derived_filename ext output <> output.
Proof.
  intros Hd Hne. destruct (occurs ".html" output) eqn:H.
  - rewrite (derived_filename_present ext output Hd H).
    exact (replace_from_present ".html" ext output Hd H).
  - rewrite (derived_filename_absent ext output H). intros E.
    apply (f_equal (@List.length ascii)) in E. rewrite length_app in E.
    destruct ext; [contradiction | cbn [List.length] in E; lia].
Qed.

Lemma replace_from_differ (old new1 new2 s : str) :
  old <> [] -> differ new1 new2 = true ->
  forall skip,
    occurs old (skipn skip s) = true ->
    replace_from old new1 skip s <> replace_from old new2 skip s.
Proof.
  intros Hold Hd. induction s as [|c s IH]; intros skip H.
  - rewrite skipn_nil in H. destruct old; [contradiction | discriminate H].
  - destruct skip as [|skip].
    + cbn [skipn] in H. cbn [replace_from].
      destruct (startswith old (c :: s)) eqn:Hst; [now apply differ_app|].
      cbn [occurs] in H. rewrite Hst in H. cbn [orb] in H.
      intros E. injection E as E. exact (IH 0%nat H E).
    + cbn [skipn] in H. cbn [replace_from]. exact (IH skip H).
Qed.

(** X20.  Whatever the output name, the names of the transcript, of the
    JSON file and of the document are three different names: no artifact
    is written over another. *)
Theorem artifact_names_are_distinct (output : str) :
  txt_filename output <> json_filename output /\
  txt_filename output <> output /\
  json_filename output <> output.
Proof.
  unfold txt_filename, json_filename. split; [|split].
  - destruct (occurs ".html" output) eqn:H.
    + rewrite !derived_filename_present by (reflexivity || exact H).
      apply (replace_from_differ ".html" ".txt" ".json" output); [discriminate | reflexivity |].
      exact H.
    + rewrite !derived_filename_absent by exact H.
      intros E. apply app_inv_head in E. discriminate E.
  - apply derived_filename_changes; [reflexivity | discriminate].
  - apply derived_filename_changes; [reflexivity | discriminate].
Qed.

(** *** The runs *)

Section Runs.

Variable float : Type.
Variable fsub : float -> float -> float.
Variable path_exists : str -> bool.
Variable PdfReader : str -> result (list str).
Variable cleaning_model : str.
Variable cleaning_create : request -> result ChatCompletion.
Variable mindmap_model : str.
Variable mindmap_create : request -> result ChatCompletion.
Variable json_loads : str -> result json.
Variable json_dump : json -> str.
Variables start_time end_time : float.

Local Abbreviation run := (main fsub path_exists PdfReader cleaning_model cleaning_create
                      mindmap_model mindmap_create json_loads json_dump
                      start_time end_time).
Local Abbreviation process := (process_pdf_paragraph cleaning_model cleaning_create fsub
                       path_exists PdfReader start_time end_time).
Local Abbreviation generate := (generate_mindmap_json mindmap_model mindmap_create json_loads).


(** X22.  When the file does not exist, or the extraction raises, the run
    exits with status 1 and writes nothing. *)
Theorem failed_extraction_writes_nothing
    (pdf_path : str) (page paragraph : Z) (output : str) :
  path_exists pdf_path = false \/
  (exists e, extract_paragraph fsub path_exists PdfReader start_time end_time
               pdf_path page paragraph = Raise e) ->
  run pdf_path page paragraph output = {| exit_status := 1; written := [] |}.
Proof.
  intros H. unfold main. destruct (path_exists pdf_path) eqn:Hex; [|reflexivity].
  destruct H as [H|[e He]]; [discriminate H|]. cbn [negb].
  unfold process_pdf_paragraph. now rewrite He.
Qed.

(** X23.  When the paragraph is extracted, a failure of the cleaning call
    does not end the run: the transcript is written, and it is the
    extracted paragraph as it stands. *)
Theorem failed_cleaning_writes_raw_paragraph
    (pdf_path : str) (page paragraph : Z) (output : str)
    (r : ExtractionResult float) (e : exn) :
  path_exists pdf_path = true ->
  extract_paragraph fsub path_exists PdfReader start_time end_time
    pdf_path page paragraph = Ok r ->
  cleaning_create (cleaning_request cleaning_model (text r)) = Raise e ->
  exists rest,
    written (run pdf_path page paragraph output) = (txt_filename output, text r) :: rest.
Proof.
  intros Hex Hr Hc. unfold main. rewrite Hex. cbn [negb].
  unfold process_pdf_paragraph. rewrite Hr. cbn [bind cleaned].
  unfold clean_transcript, clean_transcript_try. rewrite Hc. cbn [bind].
  destruct (generate (text r)) as [mindmap_data|e']; [|now exists []].
  destruct (save_mindmap_html mindmap_data output) as [html_file|e']; eexists; reflexivity.
Qed.

(** X24.  When the hierarchy step raises, the run exits with status 1 and
    the transcript, already written, is the only file. *)
Theorem failed_hierarchy_leaves_transcript
    (pdf_path : str) (page paragraph : Z) (output : str)
    (p : Processed float) (e : exn) :
  path_exists pdf_path = true ->
  process pdf_path page paragraph = Ok p ->
  generate (cleaned p) = Raise e ->
  run pdf_path page paragraph output
  = {| exit_status := 1; written := [ (txt_filename output, cleaned p) ] |}.
Proof. intros Hex Hp Hg. unfold main. now rewrite Hex, Hp, Hg. Qed.

(** X25.  When the model answers with JSON that is no object, the run exits
    with status 1 after the transcript and the JSON file are written: the
    document is missing. *)
Theorem non_object_answer_leaves_two_files
    (pdf_path : str) (page paragraph : Z) (output : str)
    (p : Processed float) (mindmap_data : json) :
  path_exists pdf_path = true ->
  process pdf_path page paragraph = Ok p ->
  generate (cleaned p) = Ok mindmap_data ->
  (forall d, mindmap_data <> JDict d) ->
  run pdf_path page paragraph output
  = {| exit_status := 1;
       written := [ (txt_filename output, cleaned p);
                    (json_filename output, json_dump mindmap_data) ] |}.
Proof.
  intros Hex Hp Hg Hd. unfold main. rewrite Hex, Hp, Hg.
  unfold save_mindmap_html.
  now rewrite (DiagramProps.json_to_mermaid_non_object mindmap_data None 0 Hd).
Qed.

(** X26.  When the answer of the model is the wire form of a topic tree,
    the run exits with status 0 and writes the three files: the cleaned
    text, the serialized tree, and the document of the tree. *)
Theorem topic_tree_answer_writes_three_files
    (pdf_path : str) (page paragraph : Z) (output : str)
    (p : Processed float) (t : topic) :
  path_exists pdf_path = true ->
  process pdf_path page paragraph = Ok p ->
  generate (cleaned p) = Ok (wire_root t) ->
  run pdf_path page paragraph output
  = {| exit_status := 0;
       written :=
         [ (txt_filename output, cleaned p);
           (json_filename output, json_dump (wire_root t));
           (output,
            html_content
              (mermaid_graph
                 (map Renderer.declaration_of (Renderer.preorder t None 0)))) ] |}.
Proof.
  intros Hex Hp Hg. unfold main. rewrite Hex, Hp, Hg.
  unfold save_mindmap_html, wire_root.
  now rewrite (RendererFacts.render_topic "root" t None 0 (or_introl eq_refl)).
Qed.

End Runs.

(** A document of one page with two paragraphs, and what the extraction and
    the pipeline make of its second paragraph when the cleaning call fails. *)
Definition sample_pages : list str := ["One." ++ [LF; LF] ++ "Two."].

Definition sample_extraction : ExtractionResult Q :=
  {| text := "Two."; page := 1; pdf_extractor.paragraph_index := 1;
     pdf_extractor.length := 4; extraction_time := Qminus 1 0 |}.

Definition sample_processed : Processed Q :=
  {| original := "Two."; cleaned := "Two."; metadata := sample_extraction |}.

Definition no_connection (_ : request) : result ChatCompletion :=
  Raise (OtherError "Connection error.").

Definition answers (content : str) (_ : request) : result ChatCompletion :=
  Ok {| choices := [Some content] |}.

Lemma failed_extraction_writes_nothing_witness :
  main Qminus (fun _ => false) (fun _ => Ok sample_pages) "llama3.1:8b" no_connection
    "gemma3:4b" no_connection (fun _ => Ok JNull) (fun _ => "null") 0%Q 1%Q
    "missing.pdf" 1 0 "out.html" = {| exit_status := 1; written := [] |} /\
  main Qminus (fun _ => true) (fun _ => Ok sample_pages) "llama3.1:8b" no_connection
    "gemma3:4b" no_connection (fun _ => Ok JNull) (fun _ => "null") 0%Q 1%Q
    "doc.pdf" 1 7 "out.html" = {| exit_status := 1; written := [] |}.
Proof.
  split.
  - apply failed_extraction_writes_nothing. left. reflexivity.
  - apply failed_extraction_writes_nothing. right. eexists. reflexivity.
Defined.

Lemma failed_cleaning_writes_raw_paragraph_witness :
  exists rest,
    written (main Qminus (fun _ => true) (fun _ => Ok sample_pages) "llama3.1:8b"
               no_connection "gemma3:4b" no_connection (fun _ => Ok JNull)
               (fun _ => "null") 0%Q 1%Q "doc.pdf" 1 1 "out.html")
    = ("out.txt", "Two.") :: rest.
Proof.
  apply (failed_cleaning_writes_raw_paragraph Q Qminus (fun _ => true)
           (fun _ => Ok sample_pages) "llama3.1:8b" no_connection "gemma3:4b" no_connection
           (fun _ => Ok JNull) (fun _ => "null") 0%Q 1%Q "doc.pdf" 1 1 "out.html"
           sample_extraction (OtherError "Connection error.")); reflexivity.
Defined.

Lemma failed_hierarchy_leaves_transcript_witness :
  main Qminus (fun _ => true) (fun _ => Ok sample_pages) "llama3.1:8b" no_connection
    "gemma3:4b" no_connection (fun _ => Ok JNull) (fun _ => "null") 0%Q 1%Q
    "doc.pdf" 1 1 "out.html"
  = {| exit_status := 1; written := [ ("out.txt", "Two.") ] |}.
Proof.
  apply (failed_hierarchy_leaves_transcript Q Qminus (fun _ => true)
           (fun _ => Ok sample_pages) "llama3.1:8b" no_connection "gemma3:4b" no_connection
           (fun _ => Ok JNull) (fun _ => "null") 0%Q 1%Q "doc.pdf" 1 1 "out.html"
           sample_processed (OtherError "Connection error.")); reflexivity.
Defined.

Lemma non_object_answer_leaves_two_files_witness :
  main Qminus (fun _ => true) (fun _ => Ok sample_pages) "llama3.1:8b" no_connection
    "gemma3:4b" (answers "[]") (fun _ => Ok (JList [])) (fun _ => "[]") 0%Q 1%Q
    "doc.pdf" 1 1 "out.html"
  = {| exit_status := 1; written := [ ("out.txt", "Two."); ("out.json", "[]") ] |}.
Proof.
  apply (non_object_answer_leaves_two_files Q Qminus (fun _ => true)
           (fun _ => Ok sample_pages) "llama3.1:8b" no_connection "gemma3:4b" (answers "[]")
           (fun _ => Ok (JList [])) (fun _ => "[]") 0%Q 1%Q "doc.pdf" 1 1 "out.html"
           sample_processed (JList [])); try reflexivity.
  intros d H. discriminate H.
Defined.

Lemma topic_tree_answer_writes_three_files_witness :
  map fst
    (written (main Qminus (fun _ => true) (fun _ => Ok sample_pages) "llama3.1:8b"
                no_connection "gemma3:4b" (answers "{}")
                (fun _ => Ok (wire_root (Topic "T" []))) (fun _ => "{}") 0%Q 1%Q
                "doc.pdf" 1 1 "out.html"))
  = ["out.txt"; "out.json"; "out.html"].
Proof.
  rewrite (topic_tree_answer_writes_three_files Q Qminus (fun _ => true)
             (fun _ => Ok sample_pages) "llama3.1:8b" no_connection "gemma3:4b"
             (answers "{}") (fun _ => Ok (wire_root (Topic "T" []))) (fun _ => "{}")
             0%Q 1%Q "doc.pdf" 1 1 "out.html" sample_processed (Topic "T" []));
    reflexivity.
Defined.

End MainProps.

(** ** pdf_extractor: nothing but whitespace is lost *)

Module CoverageProps.

Import Segmenter StrFacts StripFacts SegmenterFacts pdf_extractor.

(** The characters of a text that are no whitespace, in order. *)
Definition ink (s : str) : str := filter (fun c => negb (isspace c)) s.

Lemma ink_app (a b : str) : ink (a ++ b) = ink a ++ ink b.
Proof. apply filter_app. Qed.

Lemma ink_blank (ws : str) : blank ws -> ink ws = [].
Proof.
  unfold blank, ink. induction ws as [|c ws IH]; [reflexivity|].
  cbn [forallb filter]. intros H. apply Bool.andb_true_iff in H as [-> Hws]. auto.
Qed.

Lemma ink_strip (s : str) : ink (strip s) = ink s.
Proof.
  destruct (strip_split s) as (b & a & Hb & Ha & E). rewrite E at 2.
  now rewrite !ink_app, (ink_blank b Hb), (ink_blank a Ha), app_nil_r.
Qed.

Lemma ink_trimmed_nonempty (chunks : list str) :
  ink (concat (trimmed_nonempty chunks)) = ink (concat chunks).
Proof.
  induction chunks as [|h t IH]; [reflexivity|].
  rewrite trimmed_nonempty_cons. cbn [concat]. rewrite ink_app, <- (ink_strip h).
  destruct (PyStr.eqb (strip h) []) eqn:E.
  - apply eqb_true_iff in E. rewrite E. exact IH.
  - cbn [concat]. now rewrite ink_app, IH.
Qed.

Lemma split_from_nonempty (sep s : str) (skip : nat) : split_from sep skip s <> [].
Proof.
  revert skip. induction s as [|c s IH]; intros skip; [discriminate|].
  cbn [split_from]. destruct skip as [|skip]; [|apply IH].
  destruct (startswith sep (c :: s)); [discriminate|].
  specialize (IH 0%nat). destruct (split_from sep 0 s); [contradiction | discriminate].
Qed.

Lemma concat_cons_head (c : ascii) (l : list str) :
  l <> [] -> concat (cons_head c l) = c :: concat l.
Proof. destruct l; [contradiction | reflexivity]. Qed.

(** Splitting on a separator of whitespace loses whitespace only. *)
Lemma ink_split_from (sep s : str) :
  sep <> [] -> blank sep ->
  forall skip, ink (concat (split_from sep skip s)) = ink (skipn skip s).
Proof.
  intros Hne Hsep. induction s as [|c s IH]; intros skip.
  - rewrite skipn_nil. reflexivity.
  - cbn [split_from]. destruct skip as [|skip]; [|exact (IH skip)].
    cbn [skipn]. destruct (startswith sep (c :: s)) eqn:Hst.
    + cbn [concat app]. rewrite IH.
      destruct (CliProps.startswith_app _ _ Hst) as [rest E].
      destruct sep as [|x sep]; [contradiction|].
      cbn [app] in E. injection E as -> ->.
      replace (List.length (x :: sep) - 1)%nat with (List.length sep)
        by (cbn [List.length]; lia).
      rewrite skipn_app, skipn_all, Nat.sub_diag. cbn [skipn app].
      assert (Hx : isspace x = true /\ blank sep).
      { unfold blank in *. cbn [forallb] in Hsep. now apply Bool.andb_true_iff in Hsep. }
      destruct Hx as [Hx Hs]. unfold ink at 2. cbn [filter]. rewrite Hx. cbn [negb].
      fold (ink (sep ++ rest)). now rewrite ink_app, (ink_blank sep Hs).
    + rewrite concat_cons_head by apply split_from_nonempty.
      unfold ink at 1 2. cbn [filter]. fold (ink (concat (split_from sep 0 s))).
      fold (ink s). now rewrite (IH 0%nat).
Qed.

(** X27.  Segmentation loses and reorders nothing but whitespace: the
    characters of the paragraphs that are no whitespace are, in order, those
    of the page text. *)
Theorem paragraphs_keep_every_character (full_text : str) :
  filter (fun c => negb (isspace c)) (concat (paragraphs full_text))
  = filter (fun c => negb (isspace c)) full_text.
Proof.
  fold (ink (concat (paragraphs full_text))). fold (ink full_text).
  destruct (ParagraphProps.paragraphs_cases full_text) as [E|E]; rewrite E;
    rewrite ink_trimmed_nonempty; unfold split;
    apply (ink_split_from _ full_text); try discriminate; reflexivity.
Qed.

End CoverageProps.
